(** * PaymentAgentDemo: the payment-gated retrieval workflow

    A shallow embedding of the services that take part in the handshake

      - services/marketplace_mock/main.py     (the Resource Server)
      - services/payment_manager/main.py      (the Token Service)
      - services/agent_orchestrator/main.py   (task store and [run_workflow])

    together with the properties the specification states about them.
    (services/token_issuer_mock is called by none of them.)

    Python dictionaries are finite maps ([gmap]), module-level globals
    ([TASKS], [TOKENS], [DETAIL]) are fields of explicit state records,
    exceptions are the left summand of a state-and-error monad, and the two
    [httpx] clients [run_workflow] receives are an interface ([Client]) that
    is instantiated once with the real services and, where a property
    quantifies over upstream behaviour, left arbitrary. *)

From Stdlib Require Import ZArith NArith Ascii String List.
From stdpp Require Import gmap strings pretty.

Open Scope string_scope.
Open Scope Z_scope.

(** ** JSON values and their wire form *)

Module Json.

#[local] Unset Elimination Schemes.
Inductive json : Type :=
| JNull
| JBool (b : bool)
| JInt (z : Z)
| JStr (s : string)
| JArr (xs : list json)
| JObj (kvs : list (string * json)).
#[local] Set Elimination Schemes.

(** The double quote and the newline, spelled by their codes. *)
Definition dquote : ascii := "034"%char.
Definition newline : ascii := "010"%char.

Definition hex_digit (n : N) : ascii :=
  match String.get (N.to_nat n) "0123456789abcdef" with
  | Some c => c
  | None => "0"%char
  end.

(** [hex_field w n]: the [w] low hexadecimal digits of [n], most
    significant first (Python's ['%0wx']). *)
Fixpoint hex_field (w : nat) (n : N) : string :=
  match w with
  | O => ""
  | S w' => hex_field w' (n / 16)%N +:+ String (hex_digit (n mod 16)%N) ""
  end.

(** [json.dumps] escapes: the quote, the backslash, the named control
    characters, and [\u00XX] for the other characters below 0x20
    ([ensure_ascii=False], as Starlette's [JSONResponse] renders). *)
Definition escape_char (c : ascii) : string :=
  let n := N_of_ascii c in
  if (n =? 34)%N then String "\"%char (String dquote "")
  else if (n =? 92)%N then "\\"
  else if (n =? 8)%N then "\b"
  else if (n =? 12)%N then "\f"
  else if (n =? 10)%N then "\n"
  else if (n =? 13)%N then "\r"
  else if (n =? 9)%N then "\t"
  else if (n <? 32)%N then "\u" +:+ hex_field 4 n
  else String c "".

Fixpoint escape (s : string) : string :=
  match s with
  | EmptyString => ""
  | String c s' => escape_char c +:+ escape s'
  end.

Definition quote (s : string) : string :=
  String dquote (escape s) +:+ String dquote "".

(** Compact separators [(",", ":")], insertion order of the keys. *)
Fixpoint dumps (j : json) : string :=
  match j with
  | JNull => "null"
  | JBool true => "true"
  | JBool false => "false"
  | JInt z => pretty z
  | JStr s => quote s
  | JArr xs =>
      "[" +:+
      (fix items (l : list json) : string :=
         match l with
         | [] => ""
         | x :: l' =>
             match l' with
             | [] => dumps x
             | _ :: _ => dumps x +:+ "," +:+ items l'
             end
         end) xs +:+ "]"
  | JObj kvs =>
      "{" +:+
      (fix members (l : list (string * json)) : string :=
         match l with
         | [] => ""
         | (k, v) :: l' =>
             match l' with
             | [] => quote k +:+ ":" +:+ dumps v
             | _ :: _ => quote k +:+ ":" +:+ dumps v +:+ "," +:+ members l'
             end
         end) kvs +:+ "}"
  end.

(** Key lookup in a decoded object. *)
Fixpoint assoc (k : string) (kvs : list (string * json)) : option json :=
  match kvs with
  | [] => None
  | (k', v) :: rest => if decide (k = k') then Some v else assoc k rest
  end.

End Json.
Import Json.

(** ** Python-level notions used by the services *)

Inductive exn : Type :=
| TransportError            (* httpx could not reach the upstream *)
| JSONDecodeError           (* [r.json()] on a body that is not JSON *)
| AttributeError            (* [.get] on a decoded value that is no dict *)
| KeyError (k : string)     (* [d[k]] on a dict without [k] *)
| TypeError.                (* subscripting a non-dict, non-str header *)

(** Values held in a task dictionary. *)
Inductive pyval : Type :=
| VStr (s : string)
| VInt (z : Z).

(** [str(v)], as an f-string renders a value. *)
Definition py_str (v : pyval) : string :=
  match v with
  | VStr s => s
  | VInt z => pretty z
  end.

Definition json_of_pyval (v : pyval) : json :=
  match v with
  | VStr s => JStr s
  | VInt z => JInt z
  end.

(** [needle in hay] on strings. *)
Fixpoint contains (needle hay : string) : bool :=
  if String.prefix needle hay then true
  else match hay with
       | EmptyString => false
       | String _ hay' => contains needle hay'
       end.

(** Truthiness of an optional string ([if not x_payment_token]). *)
Definition truthy_str (o : option string) : bool :=
  match o with
  | None => false
  | Some s => if decide (s = "") then false else true
  end.

(** *** [uuid.uuid4()] and its [str] *)

Module Uuid.

(** The source of randomness: the [n]-th draw of [os.urandom(16)], read
    as an integer, and the number of draws made so far. *)
Record Rng : Type := mkRng { source : nat -> N; drawn : nat }.

(** [UUID(bytes=..., version=4)]: variant and version bits forced. *)
Definition uuid4_int (r : N) : N :=
  let i := (r mod 2 ^ 128)%N in
  let i := N.ldiff i (N.shiftl 49152 48) in
  let i := N.lor i (N.shiftl 32768 48) in
  let i := N.ldiff i (N.shiftl 61440 64) in
  N.lor i (N.shiftl 4 76).

(** [UUID.__str__]: ['%032x'] cut 8-4-4-4-12. *)
Definition uuid_str (i : N) : string :=
  hex_field 8 (N.shiftr i 96) +:+ "-" +:+
  hex_field 4 (N.shiftr i 80) +:+ "-" +:+
  hex_field 4 (N.shiftr i 64) +:+ "-" +:+
  hex_field 4 (N.shiftr i 48) +:+ "-" +:+
  hex_field 12 i.

(** [str(uuid.uuid4())] *)
Definition uuid4 (g : Rng) : string * Rng :=
  (uuid_str (uuid4_int (source g (drawn g))),
   {| source := source g; drawn := S (drawn g) |}).

End Uuid.
Import Uuid.

(** ** HTTP as the services and the driver see it *)

(** A response body is JSON, or text that does not decode as JSON. *)
Inductive body : Type :=
| BJson (j : json)
| BRaw (s : string).

Record Response : Type := mkResponse { status_code : Z; content : body }.

(** [r.text] *)
Definition text (r : Response) : string :=
  match content r with
  | BJson j => dumps j
  | BRaw s => s
  end.

(** [r.json()] *)
Definition json_of (r : Response) : exn + json :=
  match content r with
  | BJson j => inr j
  | BRaw _ => inl JSONDecodeError
  end.

(** What [run_workflow] needs of an [httpx.Client]: [get(path, headers)]
    with the optional [x-payment-token] header and [post(path, json=...)],
    both acting on the state [U] of whatever is behind the client and
    either answering or raising. *)
Record Client (U : Type) : Type := mkClient {
  c_get : string -> option string -> U -> (exn + Response) * U;
  c_post : string -> json -> U -> (exn + Response) * U
}.
Arguments c_get {U} _ _ _ _.
Arguments c_post {U} _ _ _ _.
Arguments mkClient {U} _ _.

(** FastAPI: a handler returns a value, rendered as a 200 JSON response,
    or raises [HTTPException(status_code, detail)], which the framework's
    handler renders as [JSONResponse({"detail": exc.detail}, status_code)]. *)
Record HTTPException : Type := mkHTTPException { exc_status : Z; detail : json }.

Definition respond (r : HTTPException + json) : Response :=
  match r with
  | inl e => mkResponse (exc_status e) (BJson (JObj [("detail", detail e)]))
  | inr j => mkResponse 200 (BJson j)
  end.

(** A request body that does not fit the handler's model is answered 422;
    the list of error descriptions is left empty here. *)
Definition unprocessable : Response :=
  mkResponse 422 (BJson (JObj [("detail", JArr [])])).

Definition not_found : Response :=
  mkResponse 404 (BJson (JObj [("detail", JStr "Not Found")])).

Fixpoint strip_prefix (p s : string) : option string :=
  match p with
  | EmptyString => Some s
  | String a p' =>
      match s with
      | EmptyString => None
      | String b s' => if decide (a = b) then strip_prefix p' s' else None
      end
  end.

(** ** services/marketplace_mock/main.py *)

Module Marketplace.

Record PayRequest : Type := mkPayRequest { tokenId : string; amount : Z }.

(** The module's only global, [DETAIL]. *)
Record state : Type := mkState { DETAIL : gmap string json }.

Definition DETAIL0 : gmap string json :=
  {[ "1" := JObj [("id", JStr "1"); ("name", JStr "ACME Corp");
                  ("description", JStr "A company")] ]}.

Definition init : state := {| DETAIL := DETAIL0 |}.

(** [get_detail]: 402 with the price unless a truthy token header is
    present, otherwise [DETAIL.get(id)] ([None], rendered [null], for an
    unknown id). *)
Definition get_detail (id : string) (x_payment_token : option string)
    (m : state) : (HTTPException + json) * state :=
  if negb (truthy_str x_payment_token)
  then (inl (mkHTTPException 402 (JObj [("price", JInt 10)])), m)
  else (inr (default JNull (DETAIL m !! id)), m).

(** [pay] *)
Definition pay (req : PayRequest) (m : state) : (HTTPException + json) * state :=
  (inr (JObj [("success", JBool true)]), m).

(** Decoding of the [/pay] body into a [PayRequest], for bodies whose
    [tokenId] is a JSON string and whose [amount] is a JSON integer (the
    framework also converts some other values). *)
Definition parse_PayRequest (j : json) : option PayRequest :=
  match j with
  | JObj kvs =>
      match assoc "tokenId" kvs, assoc "amount" kvs with
      | Some (JStr t), Some (JInt a) => Some (mkPayRequest t a)
      | _, _ => None
      end
  | _ => None
  end.

(** The routes of the application (the [/company/basic] search is not
    part of the payment handshake and is not routed here). The id is the
    text after [?id=]: this is the framework's reading of the query for ids
    without [&], [%], [+] and [#], such as the driver's [detail_path]; a
    path without [?id=] is answered like an unknown page. *)
Definition route_get (path : string) (hdr : option string) (m : state)
    : Response * state :=
  match strip_prefix "/company/detail?id=" path with
  | Some id => let '(r, m') := get_detail id hdr m in (respond r, m')
  | None => (not_found, m)
  end.

Definition route_post (path : string) (b : json) (m : state) : Response * state :=
  if decide (path = "/pay") then
    match parse_PayRequest b with
    | Some req => let '(r, m') := pay req m in (respond r, m')
    | None => (unprocessable, m)
    end
  else (not_found, m).

End Marketplace.

(** ** services/payment_manager/main.py *)

Module PaymentManager.

Record TokenRequest : Type := mkTokenRequest { budget : Z; voice_id : string }.
Record TokenResponse : Type := mkTokenResponse { token_id : string; expire_in : Z }.
Record BalanceResponse : Type := mkBalanceResponse { balance : Z }.

(** The global [TOKENS] and the randomness behind [uuid.uuid4()]. *)
Record state : Type := mkState { TOKENS : gmap string Z; rng : Rng }.

(** [create_token] *)
Definition create_token (req : TokenRequest) (p : state) : TokenResponse * state :=
  let '(tid, g) := uuid4 (rng p) in
  (mkTokenResponse tid 3600,
   {| TOKENS := <[tid := budget req]> (TOKENS p); rng := g |}).

(** [get_balance] *)
Definition get_balance (tid : string) (p : state) : BalanceResponse * state :=
  (mkBalanceResponse (default 0 (TOKENS p !! tid)), p).

Definition json_of_TokenResponse (r : TokenResponse) : json :=
  JObj [("token_id", JStr (token_id r)); ("expire_in", JInt (expire_in r))].

Definition json_of_BalanceResponse (r : BalanceResponse) : json :=
  JObj [("balance", JInt (balance r))].

(** Decoding of the [/token] body into a [TokenRequest], for bodies whose
    [budget] is a JSON integer and whose [voice_id] is a JSON string (the
    framework also converts some other values). *)
Definition parse_TokenRequest (j : json) : option TokenRequest :=
  match j with
  | JObj kvs =>
      match assoc "budget" kvs, assoc "voice_id" kvs with
      | Some (JInt b), Some (JStr v) => Some (mkTokenRequest b v)
      | _, _ => None
      end
  | _ => None
  end.

Definition route_post (path : string) (b : json) (p : state) : Response * state :=
  if decide (path = "/token") then
    match parse_TokenRequest b with
    | Some req =>
        let '(r, p') := create_token req p in
        (respond (inr (json_of_TokenResponse r)), p')
    | None => (unprocessable, p)
    end
  else (not_found, p).

(** [GET /balance/{token_id}]: the id is the text after [/balance/];
    this is the framework's reading of the path for a non-empty id without
    [/], [?], [#] and [%], such as a rendered uuid. *)
Definition route_get (path : string) (hdr : option string) (p : state)
    : Response * state :=
  match strip_prefix "/balance/" path with
  | Some tid =>
      let '(r, p') := get_balance tid p in
      (respond (inr (json_of_BalanceResponse r)), p')
  | None => (not_found, p)
  end.

End PaymentManager.

(** ** services/agent_orchestrator/main.py *)

Module Orchestrator.

Record TaskRequest : Type :=
  mkTaskRequest { theme : string; budget : Z; voice_id : string }.
Record TaskResponse : Type := mkTaskResponse { task_id : string }.

(** [req.dict()] *)
Definition dict (req : TaskRequest) : gmap string pyval :=
  <["voice_id" := VStr (voice_id req)]>
    (<["budget" := VInt (budget req)]>
       (<["theme" := VStr (theme req)]> ∅)).

(** The requests the driver puts on the wire, in order. *)
Inductive peer : Type := ToMarketplace | ToPayment.

Inductive Call : Type :=
| Get (to : peer) (path : string) (token : option string)
| Post (to : peer) (path : string) (b : json).

(** The world of one orchestrator process: its global [TASKS], its own
    [uuid] randomness, the state [U] behind its two clients, and the
    trace of requests sent so far. *)
Record world (U : Type) : Type := mkWorld {
  TASKS : gmap string (gmap string pyval);
  rng : Rng;
  upstream : U;
  wire : list Call
}.
Arguments mkWorld {U} _ _ _ _.
Arguments TASKS {U} _.
Arguments rng {U} _.
Arguments upstream {U} _.
Arguments wire {U} _.

(** State and exceptions. *)
Definition M (S A : Type) : Type := S -> (exn + A) * S.

Definition ret {S A} (a : A) : M S A := fun s => (inr a, s).
Definition raise {S A} (e : exn) : M S A := fun s => (inl e, s).
Definition bind {S A B} (m : M S A) (k : A -> M S B) : M S B :=
  fun s =>
    match m s with
    | (inl e, s') => (inl e, s')
    | (inr a, s') => k a s'
    end.
Definition lift {S A} (r : exn + A) : M S A := fun s => (r, s).

Declare Scope py_scope.
Delimit Scope py_scope with py.
Notation "'let*' x ':=' m 'in' k" := (bind m (fun x => k))
  (at level 10, x name, m at level 100, k at level 200) : py_scope.
Notation "m ';;' k" := (bind m (fun _ => k))
  (at level 100, k at level 200, right associativity) : py_scope.

(** [d[k]] on a task dictionary. *)
Definition getitem (d : gmap string pyval) (k : string) : exn + pyval :=
  match d !! k with
  | Some v => inr v
  | None => inl (KeyError k)
  end.

(** [j.get(k, dflt)] on a decoded JSON value: only a dict has [get]. *)
Definition py_get (j : json) (k : string) (dflt : json) : exn + json :=
  match j with
  | JObj kvs => inr (default dflt (assoc k kvs))
  | _ => inl AttributeError
  end.

(** [j[k]] on a decoded JSON value with a string key. *)
Definition py_item (j : json) (k : string) : exn + json :=
  match j with
  | JObj kvs =>
      match assoc k kvs with
      | Some v => inr v
      | None => inl (KeyError k)
      end
  | _ => inl TypeError
  end.

(** A header value must be a string. *)
Definition header_value (j : json) : exn + string :=
  match j with
  | JStr s => inr s
  | _ => inl TypeError
  end.

Section Workflow.
Context {U : Type}.
Variables marketplace_client payment_client : Client U.

Definition client_of (to : peer) : Client U :=
  match to with
  | ToMarketplace => marketplace_client
  | ToPayment => payment_client
  end.

Definition http_get (to : peer) (path : string) (token : option string)
    : M (world U) Response :=
  fun w =>
    let '(r, u) := c_get (client_of to) path token (upstream w) in
    (r, mkWorld (TASKS w) (rng w) u (wire w ++ [Get to path token])).

Definition http_post (to : peer) (path : string) (b : json)
    : M (world U) Response :=
  fun w =>
    let '(r, u) := c_post (client_of to) path b (upstream w) in
    (r, mkWorld (TASKS w) (rng w) u (wire w ++ [Post to path b])).

(** [TASKS[task_id]["report"] = report]: the record is the very
    dictionary held in [TASKS], updated in place. *)
Definition set_report (task_id report : string) : M (world U) unit :=
  fun w =>
    match TASKS w !! task_id with
    | None => (inl (KeyError task_id), w)
    | Some t =>
        (inr tt,
         mkWorld (<[task_id := <["report" := VStr report]> t]> (TASKS w))
                 (rng w) (upstream w) (wire w))
    end.

(** [f"## {theme}\n\n{r.text}"] *)
Definition render_report (theme : pyval) (r : Response) : string :=
  "## " +:+ py_str theme +:+ String newline (String newline "") +:+ text r.

Definition detail_path : string := "/company/detail?id=1".

Open Scope py_scope.

(** The payment branch of [run_workflow] (the body of
    [if r.status_code == 402]); it yields the response of the retried GET. *)
Definition pay_and_retry (task : gmap string pyval) (r : Response)
    : M (world U) Response :=
  let* j := lift (json_of r) in
  let* price := lift (py_get j "price" (JInt 0)) in
  let* voice := lift (getitem task "voice_id") in
  let* token_resp :=
    http_post ToPayment "/token"
      (JObj [("budget", price); ("voice_id", json_of_pyval voice)]) in
  let* tj := lift (json_of token_resp) in
  let* token_id := lift (py_item tj "token_id") in
  http_post ToMarketplace "/pay"
    (JObj [("tokenId", token_id); ("amount", price)]) ;;
  let* hv := lift (header_value token_id) in
  http_get ToMarketplace detail_path (Some hv).

(** [run_workflow(task_id, marketplace_client, payment_client)] *)
Definition run_workflow (task_id : string) : M (world U) unit :=
  fun w =>
    match TASKS w !! task_id with
    | None => (inr tt, w)
    | Some task =>
        if decide (task = ∅) then (inr tt, w)
        else
          (let* theme := lift (getitem task "theme") in
           let* r := http_get ToMarketplace detail_path None in
           let* r := (if decide (status_code r = 402)
                      then pay_and_retry task r
                      else ret r) in
           set_report task_id (render_report theme r)) w
    end.

Close Scope py_scope.

End Workflow.

(** [create_task], the handler called as a function: the new record is
    [req.dict()] and the answer carries its id.
    [background_tasks.add_task(run_workflow, task_id)] only puts the job on
    the queue it is given; running that queue (with the default clients of
    [run_workflow]) is done by the framework after the answer is built and
    is not part of this function. *)
Definition create_task {U} (req : TaskRequest) (w : world U)
    : TaskResponse * world U :=
  let '(tid, g) := uuid4 (rng w) in
  (mkTaskResponse tid,
   mkWorld (<[tid := dict req]> (TASKS w)) g (upstream w) (wire w)).

End Orchestrator.

(** ** The deployment of the test suite: the real services behind the clients *)

Module Deployment.

Record backend : Type := mkBackend {
  market : Marketplace.state;
  payment : PaymentManager.state
}.

(** [TestClient(marketplace_app)] *)
Definition marketplace_client : Client backend :=
  mkClient
    (fun path hdr u =>
       let '(r, m) := Marketplace.route_get path hdr (market u) in
       (inr r, mkBackend m (payment u)))
    (fun path b u =>
       let '(r, m) := Marketplace.route_post path b (market u) in
       (inr r, mkBackend m (payment u))).

(** [TestClient(payment_app)] *)
Definition payment_client : Client backend :=
  mkClient
    (fun path hdr u =>
       let '(r, p) := PaymentManager.route_get path hdr (payment u) in
       (inr r, mkBackend (market u) p))
    (fun path b u =>
       let '(r, p) := PaymentManager.route_post path b (payment u) in
       (inr r, mkBackend (market u) p)).

Definition run_workflow (task_id : string)
    : Orchestrator.M (Orchestrator.world backend) unit :=
  Orchestrator.run_workflow marketplace_client payment_client task_id.

(** The pieces of one run against these services. *)

(** The id the Token Service will hand out next. *)
Definition next_token (w : Orchestrator.world backend) : string :=
  uuid_str (uuid4_int
    (source (PaymentManager.rng (payment (Orchestrator.upstream w)))
            (drawn (PaymentManager.rng (payment (Orchestrator.upstream w)))))).

(** The priced refusal as it arrives at the driver. *)
Definition refusal : Response :=
  mkResponse 402 (BJson (JObj [("detail", JObj [("price", JInt 10)])])).

(** The answer to a GET of resource 1 that carries a token. *)
Definition granted (w : Orchestrator.world backend) : Response :=
  mkResponse 200
    (BJson (default JNull
       (Marketplace.DETAIL (market (Orchestrator.upstream w)) !! "1"))).

(** The backend once the next token has been issued with budget [b]. *)
Definition after_issue (w : Orchestrator.world backend) (b : Z) : backend :=
  mkBackend (market (Orchestrator.upstream w))
    (PaymentManager.mkState
       (<[next_token w := b]>
          (PaymentManager.TOKENS (payment (Orchestrator.upstream w))))
       (mkRng (source (PaymentManager.rng (payment (Orchestrator.upstream w))))
              (S (drawn (PaymentManager.rng (payment (Orchestrator.upstream w))))))).

(** The three requests that follow a refused probe, for a price [price]
    as the driver read it. *)
Definition settlement_calls (price : Z) (v tok : string) : list Orchestrator.Call :=
  [Orchestrator.Post Orchestrator.ToPayment "/token"
     (JObj [("budget", JInt price); ("voice_id", JStr v)]);
   Orchestrator.Post Orchestrator.ToMarketplace "/pay"
     (JObj [("tokenId", JStr tok); ("amount", JInt price)]);
   Orchestrator.Get Orchestrator.ToMarketplace Orchestrator.detail_path (Some tok)].

Definition handshake (price : Z) (v tok : string) : list Orchestrator.Call :=
  Orchestrator.Get Orchestrator.ToMarketplace Orchestrator.detail_path None
  :: settlement_calls price v tok.

(** The token store as seen from the orchestrator's world. *)
Definition tokens_of (w : Orchestrator.world backend) : gmap string Z :=
  PaymentManager.TOKENS (payment (Orchestrator.upstream w)).

End Deployment.

(** ** Vocabulary of the specification *)

Module Spec.
Import Orchestrator Deployment.

(** The Task data model of the specification: a [status] and an [error]
    (reason) besides the report. *)
Definition has_status (s : string) (t : gmap string pyval) : Prop :=
  t !! "status" = Some (VStr s).

Definition has_reason (s : string) (t : gmap string pyval) : Prop :=
  t !! "error" = Some (VStr s).

(** No field of the record, whatever its name, holds the string [s]. *)
Definition mentions_nowhere (s : string) (t : gmap string pyval) : Prop :=
  map_Forall (fun _ v => v <> VStr s) t.

(** The price carried by a priced refusal as the handler raises it. *)
Definition quoted (r : HTTPException + json) : option Z :=
  match r with
  | inl (mkHTTPException 402 (JObj kvs)) =>
      match assoc "price" kvs with
      | Some (JInt p) => Some p
      | _ => None
      end
  | _ => None
  end.

(** A settlement answer counts as success when it is a 200 whose
    [success] field is [true]. *)
Definition settled (r : Response) : bool :=
  match status_code r, content r with
  | 200, BJson (JObj kvs) =>
      match assoc "success" kvs with
      | Some (JBool true) => true
      | _ => false
      end
  | _, _ => false
  end.

(** Requests a client of the two backend services can make, and the
    state they leave behind. *)
Inductive request : Type :=
| Detail (id : string) (token : option string)
| Pay (req : Marketplace.PayRequest)
| Issue (req : PaymentManager.TokenRequest)
| Balance (tid : string).

Definition serve (q : request) (u : backend) : backend :=
  match q with
  | Detail id tok => mkBackend (Marketplace.get_detail id tok (market u)).2 (payment u)
  | Pay req => mkBackend (Marketplace.pay req (market u)).2 (payment u)
  | Issue req => mkBackend (market u) (PaymentManager.create_token req (payment u)).2
  | Balance tid => mkBackend (market u) (PaymentManager.get_balance tid (payment u)).2
  end.

Definition serve_all (qs : list request) (u : backend) : backend :=
  foldl (fun u q => serve q u) u qs.

(** [getBalance] as a plain query. *)
Definition balance_of (tid : string) (u : backend) : Z :=
  PaymentManager.balance (PaymentManager.get_balance tid (payment u)).1.

Definition balances_nonneg (u : backend) : Prop :=
  map_Forall (fun _ b => 0 <= b) (PaymentManager.TOKENS (payment u)).

Definition funded (q : request) : Prop :=
  match q with
  | Issue req => 0 <= PaymentManager.budget req
  | _ => True
  end.

(** GETs that carry a payment token. *)
Definition is_token_get (c : Call) : bool :=
  match c with
  | Get _ _ (Some _) => true
  | _ => false
  end.

Definition token_gets (l : list Call) : nat := length (filter is_token_get l).

(** Token requests put on the wire. *)
Definition is_token_request (c : Call) : bool :=
  match c with
  | Post ToPayment "/token" _ => true
  | _ => false
  end.

Definition token_requests (l : list Call) : nat :=
  length (filter is_token_request l).

(** Frame conditions on driver computations. *)

(** The computation never writes [TASKS]. *)
Definition keeps_tasks {U A} (m : M (world U) A) : Prop :=
  forall w, TASKS (m w).2 = TASKS w.

(** The computation leaves [TASKS] alone whenever it raises. *)
Definition keeps_tasks_on_error {U A} (m : M (world U) A) : Prop :=
  forall w e, (m w).1 = inl e -> TASKS (m w).2 = TASKS w.

(** The computation only appends to the wire, and what it appends holds at
    most [n] token-carrying GETs. *)
Definition emits {U A} (m : M (world U) A) (n : nat) : Prop :=
  forall w, exists l, wire (m w).2 = (wire w ++ l)%list /\ (token_gets l <= n)%nat.

(** What the specification asks of a settlement that must be refused:
    a failure answer and an unchanged server. *)
Definition rejects_settlement (req : Marketplace.PayRequest)
    (m : Marketplace.state) : Prop :=
  settled (respond (Marketplace.pay req m).1) = false /\
  (Marketplace.pay req m).2 = m.

(** Ids still to be drawn by the Token Service differ from [tid]. *)
Definition never_redrawn (tid : string) (p : PaymentManager.state) : Prop :=
  forall n, (drawn (PaymentManager.rng p) <= n)%nat ->
            uuid_str (uuid4_int (source (PaymentManager.rng p) n)) <> tid.

(** Terminal task states in the words of the specification. *)
Definition failed_with (reason : string) (t : gmap string pyval) : Prop :=
  has_status "failed" t /\ has_reason reason t.

Definition completed (t : gmap string pyval) : Prop := has_status "completed" t.

(** What the specification asks of a run in which an upstream fails: the
    run returns normally and the task record carries a reason. *)
Definition caught_and_recorded {U} (out : (exn + unit) * world U)
    (tid : string) : Prop :=
  out.1 = inr tt /\
  exists t reason, TASKS out.2 !! tid = Some t /\ has_reason reason t.

(** The world with the record of [tid] replaced by [t]. *)
Definition with_record {U} (w : world U) (tid : string)
    (t : gmap string pyval) : world U :=
  mkWorld (<[tid := t]> (TASKS w)) (rng w) (upstream w) (wire w).

(** The request [req] with another budget. *)
Definition with_budget (req : TaskRequest) (b : Z) : TaskRequest :=
  mkTaskRequest (theme req) b (voice_id req).

End Spec.

(** ** A concrete deployment, as in tests/test_workflow.py *)

Module Scenario.
Import Orchestrator Deployment.

Definition entropy (salt : N) : Rng := mkRng (fun n => (salt + N.of_nat n)%N) 0.

Definition backend0 : backend :=
  mkBackend Marketplace.init (PaymentManager.mkState ∅ (entropy 4096)).

Definition world0 : world backend := mkWorld ∅ (entropy 1) backend0 [].

(** [create_task] called with the given budget; its queued job is not
    yet run. *)
Definition submitted (b : Z) : TaskResponse * world backend :=
  create_task (mkTaskRequest "test" b "v1") world0.

(** ... and after the scheduled execution. *)
Definition executed (b : Z) : (exn + unit) * world backend :=
  run_workflow (task_id (submitted b).1) (submitted b).2.

Definition record_of (b : Z) (w : world backend) : gmap string pyval :=
  default ∅ (TASKS w !! task_id (submitted b).1).

(** An upstream that cannot be reached. *)
Definition unreachable : Client unit :=
  mkClient (fun _ _ u => (inl TransportError, u))
           (fun _ _ u => (inl TransportError, u)).

(** A resource server that quotes a price and refuses whatever token it is
    shown; its [pay] answers like the real one. *)
Definition refusing_marketplace : Client backend :=
  mkClient
    (fun _ _ u => (inr (mkResponse 402 (BJson (JObj [("price", JInt 10)]))), u))
    (c_post marketplace_client).

(** A resource server whose refusal body is not JSON. *)
Definition garbled_marketplace : Client backend :=
  mkClient
    (fun _ _ u => (inr (mkResponse 402 (BRaw "<html>Payment Required</html>")), u))
    (c_post marketplace_client).

(** A source of ids whose first draw differs from all later ones. *)
Definition two_ids : Rng :=
  mkRng (fun n => match n with O => 7%N | S _ => 9%N end) 0.

(** The record of resource 1. *)
Definition acme : json :=
  JObj [("id", JStr "1"); ("name", JStr "ACME Corp");
        ("description", JStr "A company")].

(** The report a run leaves behind when the retried GET is refused with
    a body [{"price": 10}]. *)
Definition refused_report : string :=
  "## test" +:+ String newline (String newline "") +:+
  dumps (JObj [("price", JInt 10)]).

(** A task already on record under the id ["t"], for upstreams other
    than the real services. *)
Definition on_record {U} (u : U) : world U :=
  mkWorld {[ "t" := dict (mkTaskRequest "test" 50 "v1") ]} (entropy 1) u [].

End Scenario.

(** ** services/marketplace_mock/main.py, continued: the free search *)

Module Search.
Import Marketplace.

(** [str.lower()] on ASCII text: the letters A to Z are shifted, every
    other character is kept. *)
Definition lower_char (c : ascii) : ascii :=
  let n := N_of_ascii c in
  if ((65 <=? n) && (n <=? 90))%N then ascii_of_N (n + 32) else c.

Fixpoint lower (s : string) : string :=
  match s with
  | EmptyString => EmptyString
  | String c s' => String (lower_char c) (lower s')
  end.

(** One element of the comprehension: [{"id": cid, "name": info["name"]}]. *)
Definition entry (cid name : string) : json :=
  JObj [("id", JStr cid); ("name", JStr name)].

(** The comprehension over [DETAIL.items()]: for each company the filter
    [keyword.lower() in info["name"].lower()] is evaluated first; a record
    without [name] raises from [info["name"]], a name that is no string
    raises from [.lower()]. *)
Fixpoint collect (keyword : string) (items : list (string * json))
    : exn + list json :=
  match items with
  | [] => inr []
  | (cid, info) :: rest =>
      match Orchestrator.py_item info "name" with
      | inl e => inl e
      | inr (JStr name) =>
          match collect keyword rest with
          | inl e => inl e
          | inr data =>
              inr (if contains (lower keyword) (lower name)
                   then entry cid name :: data
                   else data)
          end
      | inr _ => inl AttributeError
      end
  end.

(** [get_basic]. The companies are visited in the order of
    [map_to_list], which stands for the insertion order of the source
    dictionary; nothing below depends on it. *)
Definition get_basic (keyword : string) (m : state) : (exn + json) * state :=
  (match collect keyword (map_to_list (DETAIL m)) with
   | inl e => inl e
   | inr data => inr (JObj [("data", JArr data)])
   end, m).

(** Every company is a dictionary with a string under [name]. *)
Definition named (m : state) : Prop :=
  map_Forall (fun _ info =>
    exists kvs name, info = JObj kvs /\ assoc "name" kvs = Some (JStr name))
    (DETAIL m).

(** The name of company [cid], when it has one. *)
Definition name_of (m : state) (cid : string) : option string :=
  match DETAIL m !! cid with
  | Some (JObj kvs) =>
      match assoc "name" kvs with
      | Some (JStr name) => Some name
      | _ => None
      end
  | _ => None
  end.



End Search.

(** ** services/token_issuer_mock/main.py *)

Module TokenIssuer.

Record TokenResponse : Type := mkTokenResponse { token_id : string; expire_in : Z }.

(** [issue_token]: the credentials are not looked at. *)
Definition issue_token (app_id app_secret : string) (g : Rng) : TokenResponse * Rng :=
  let '(tid, g') := uuid4 g in (mkTokenResponse tid 3600, g').

End TokenIssuer.

(** ** Further vocabulary *)

Module Conduct.
Import Orchestrator.

(** The four requests of a full handshake, as [run_workflow] builds them
    from the price it read, the task's [voice_id] and the token id it was
    handed. *)
Definition probe : Call := Get ToMarketplace detail_path None.

Definition token_request (price : json) (voice : pyval) : Call :=
  Post ToPayment "/token" (JObj [("budget", price); ("voice_id", json_of_pyval voice)]).

Definition settlement (token_id price : json) : Call :=
  Post ToMarketplace "/pay" (JObj [("tokenId", token_id); ("amount", price)]).

Definition retry (tok : string) : Call := Get ToMarketplace detail_path (Some tok).

(** What one run may put on the wire: an initial segment of the
    handshake, cut where the run stopped. *)
Inductive wire_shape : list Call -> Prop :=
| shape_none : wire_shape []
| shape_probe : wire_shape [probe]
| shape_token price voice : wire_shape [probe; token_request price voice]
| shape_paid price voice token_id :
    wire_shape [probe; token_request price voice; settlement token_id price]
| shape_full price voice tok :
    wire_shape [probe; token_request price voice; settlement (JStr tok) price;
                retry tok].

(** The task store after a run for [tid]: as before, or with the report
    of that one task written. *)
Definition only_report (tid : string)
    (T T' : gmap string (gmap string pyval)) : Prop :=
  T' = T \/
  exists t rep, T !! tid = Some t /\ T' = <[tid := <["report" := VStr rep]> t]> T.

End Conduct.

Module Ledger.
Import Spec.

Definition is_issue (q : request) : bool :=
  match q with
  | Issue _ => true
  | _ => false
  end.

(** The number of issuance requests in a sequence. *)
Definition issues (qs : list request) : nat := length (filter is_issue qs).

End Ledger.

(** ** Further upstreams and states used as instances *)

Module Cases.
Import Orchestrator Deployment.

(** A resource server that knows no such page. *)
Definition lost_marketplace : Client backend :=
  mkClient (fun _ _ u => (inr not_found, u)) (c_post marketplace_client).

(** A Token Service that answers every request with an error document. *)
Definition broken_payment : Client backend :=
  mkClient
    (fun _ _ u => (inr not_found, u))
    (fun _ _ u =>
       (inr (mkResponse 500 (BJson (JObj [("detail", JStr "Internal Server Error")]))),
        u)).

(** A record that has a theme but no [voice_id]. *)
Definition anonymous {U} (u : U) : world U :=
  mkWorld {[ "t" := {[ "theme" := VStr "test" ]} ]} (Scenario.entropy 1) u [].

(** A catalogue with a company that has no name. *)
Definition stub : json := JObj [("id", JStr "2")].

Definition nameless : Marketplace.state :=
  Marketplace.mkState (<["2" := stub]> Marketplace.DETAIL0).

(** A Token Service that cannot be reached. *)
Definition offline_payment : Client backend :=
  mkClient (fun _ _ u => (inl TransportError, u))
           (fun _ _ u => (inl TransportError, u)).

End Cases.

(** * Properties *)

(** ** Basic facts about the encodings *)

Section Encodings.

Lemma append_nonempty_r (s1 s2 : string) : s2 <> "" -> s1 +:+ s2 <> "".
Proof.
  destruct s1 as [|a s1]; simpl; [done | discriminate].
Qed.

Lemma append_nonempty_l (s1 s2 : string) : s1 <> "" -> s1 +:+ s2 <> "".
Proof.
  destruct s1 as [|a s1]; simpl; [done | discriminate].
Qed.

(** A rendered UUID is never the empty string, so it is a truthy header. *)
Lemma uuid_str_nonempty (i : N) : uuid_str i <> "".
Proof.
  unfold uuid_str.
  apply append_nonempty_r, append_nonempty_l. discriminate.
Qed.

Lemma truthy_nonempty (s : string) : s <> "" -> truthy_str (Some s) = true.
Proof.
  intros Hs. unfold truthy_str. by destruct (decide (s = "")).
Qed.

Lemma strip_prefix_app (p s : string) : strip_prefix p (p +:+ s) = Some s.
Proof.
  induction p as [|a p IH]; simpl; [done|].
  destruct (decide (a = a)); [exact IH | done].
Qed.

Lemma strip_prefix_detail_path :
  strip_prefix "/company/detail?id=" Orchestrator.detail_path = Some "1".
Proof. reflexivity. Qed.

Example uuid4_renders :
  (uuid4 {| source := fun _ => 0%N; drawn := 0 |}).1
  = "00000000-0000-4000-8000-000000000000".
Proof. reflexivity. Qed.

Example dumps_compact :
  dumps (JObj [("id", JStr "1"); ("n", JInt (-3)); ("l", JArr [JNull; JBool true])])
  = String "{" (String dquote "id") +:+ String dquote ":" +:+ String dquote "1" +:+
    String dquote "," +:+ String dquote "n" +:+ String dquote ":-3," +:+
    String dquote "l" +:+ String dquote ":[null,true]}".
Proof. reflexivity. Qed.

End Encodings.

(** ** The Resource Server *)

Section ResourceServer.
Import Marketplace Deployment Spec.

(** The refusal as it leaves the server: FastAPI wraps the [detail] of the
    exception, so the price sits under the key [detail]. *)
Lemma get_detail_refusal (id : string) (m : state) :
  route_get ("/company/detail?id=" +:+ id) None m
  = (mkResponse 402 (BJson (JObj [("detail", JObj [("price", JInt 10)])])), m).
Proof.
  unfold route_get. rewrite strip_prefix_app. reflexivity.
Qed.

Lemma pay_always_succeeds (req : PayRequest) (m : state) :
  pay req m = (inr (JObj [("success", JBool true)]), m).
Proof. reflexivity. Qed.

(** C9. For every resource id known to [DETAIL] and every non-empty
    [x-payment-token] value, the resource GET answers 200 with the full
    record and changes nothing; the token store of the Token Service is
    arbitrary here, so the token need never have been issued, nor any
    settlement made for it. *)
Theorem C9_any_token_grants_resource
    (u : backend) (id tok : string) (rec : json) :
  DETAIL (market u) !! id = Some rec ->
  tok <> "" ->
  get_detail id (Some tok) (market u) = (inr rec, market u) /\
  c_get marketplace_client ("/company/detail?id=" +:+ id) (Some tok) u
  = (inr (mkResponse 200 (BJson rec)), u).
Proof.
  intros Hid Htok.
  assert (Hh : get_detail id (Some tok) (market u) = (inr rec, market u)).
  { unfold get_detail. rewrite truthy_nonempty by done. simpl. by rewrite Hid. }
  split; [exact Hh|].
  destruct u as [m p]. simpl in *.
  unfold route_get. rewrite strip_prefix_app, Hh. reflexivity.
Qed.

Lemma C9_witness :
  get_detail "1" (Some "never-issued") (market Scenario.backend0)
  = (inr (JObj [("id", JStr "1"); ("name", JStr "ACME Corp");
                ("description", JStr "A company")]),
     market Scenario.backend0) /\
  c_get marketplace_client ("/company/detail?id=" +:+ "1") (Some "never-issued")
        Scenario.backend0
  = (inr (mkResponse 200
            (BJson (JObj [("id", JStr "1"); ("name", JStr "ACME Corp");
                          ("description", JStr "A company")]))),
     Scenario.backend0).
Proof.
  apply (C9_any_token_grants_resource Scenario.backend0 "1" "never-issued").
  - reflexivity.
  - discriminate.
Defined.

(** C4, as stated, fails: a settlement of a negative amount for a token
    nobody issued is answered with success. *)
Lemma C4_counterexample :
  amount (mkPayRequest "no-such-token" (-5)) <= 0 /\
  ~ rejects_settlement (mkPayRequest "no-such-token" (-5)) init.
Proof.
  split; [simpl; lia|].
  intros [H _]. discriminate H.
Qed.

(** C4 (amended). [pay] validates nothing: every settlement request, of
    any token id and any amount, is answered 200 [{"success": true}], and
    the server's state is unchanged. *)
Theorem C4_pay_accepts_everything (req : PayRequest) (m : state) :
  pay req m = (inr (JObj [("success", JBool true)]), m) /\
  settled (respond (pay req m).1) = true /\
  route_post "/pay"
    (JObj [("tokenId", JStr (tokenId req)); ("amount", JInt (amount req))]) m
  = (mkResponse 200 (BJson (JObj [("success", JBool true)])), m).
Proof.
  repeat split; reflexivity.
Qed.

End ResourceServer.

(** ** The Token Service *)

Section TokenService.
Import PaymentManager Deployment Spec.

Lemma create_token_eq (req : TokenRequest) (p : state) :
  create_token req p
  = (mkTokenResponse (uuid_str (uuid4_int (source (rng p) (drawn (rng p))))) 3600,
     mkState (<[uuid_str (uuid4_int (source (rng p) (drawn (rng p)))) := budget req]>
                (TOKENS p))
             (mkRng (source (rng p)) (S (drawn (rng p))))).
Proof. reflexivity. Qed.

(** A token queried right after issuance shows the budget it was issued
    with, whatever that budget is. *)
Lemma balance_after_issue (req : TokenRequest) (p : state) :
  balance (get_balance (token_id (create_token req p).1) (create_token req p).2).1
  = budget req.
Proof.
  rewrite create_token_eq. simpl. by rewrite lookup_insert_eq.
Qed.

Lemma get_balance_pure (tid : string) (p : state) : (get_balance tid p).2 = p.
Proof. reflexivity. Qed.

(** Only issuance touches the token store. *)
Lemma serve_tokens (q : request) (u : backend) :
  (forall req, q <> Issue req) ->
  payment (serve q u) = payment u.
Proof.
  intros Hq. destruct q as [id tok|req|req|tid]; simpl; try done.
  by destruct (Hq req).
Qed.

Lemma serve_preserves_nonneg (q : request) (u : backend) :
  funded q -> balances_nonneg u -> balances_nonneg (serve q u).
Proof.
  intros Hq Hu. destruct q as [id tok|req|req|tid]; simpl in *; try exact Hu.
  unfold balances_nonneg. simpl. by apply map_Forall_insert_2.
Qed.

Lemma serve_all_preserves_nonneg (qs : list request) (u : backend) :
  Forall funded qs -> balances_nonneg u -> balances_nonneg (serve_all qs u).
Proof.
  intros Hqs. revert u.
  induction Hqs as [|q qs Hq _ IH]; intros u Hu; simpl; [exact Hu|].
  apply IH. by apply serve_preserves_nonneg.
Qed.

Lemma balance_of_nonneg (tid : string) (u : backend) :
  balances_nonneg u -> 0 <= balance_of tid u.
Proof.
  intros Hu. unfold balance_of. simpl.
  destruct (TOKENS (payment u) !! tid) as [b|] eqn:E; simpl; [|lia].
  exact (Hu tid b E).
Qed.

(** C5, as stated, fails: a negative budget is accepted, stored, and
    reported back by the balance lookup. *)
Lemma C5_counterexample :
  let p0 := payment Scenario.backend0 in
  let issued := create_token (mkTokenRequest (-1) "v1") p0 in
  (route_post "/token" (JObj [("budget", JInt (-1)); ("voice_id", JStr "v1")]) p0).1
  = mkResponse 200 (BJson (json_of_TokenResponse issued.1)) /\
  TOKENS issued.2 !! token_id issued.1 = Some (-1) /\
  balance (get_balance (token_id issued.1) issued.2).1 = -1.
Proof. vm_compute. repeat split; reflexivity. Qed.

(** C5 (amended). [create_token] has no [InvalidBudget] rejection: it
    stores whatever budget is requested. Balances are non-negative as long
    as every issuance request carries a non-negative budget: from a token
    store without negative balances, any sequence of requests to the
    backend in which every issued budget is [>= 0] leaves every stored
    balance, and every balance answer, non-negative. *)
Theorem C5_balances_nonneg_if_budgets_are
    (qs : list request) (u : backend) (tid : string) :
  Forall funded qs ->
  balances_nonneg u ->
  balances_nonneg (serve_all qs u) /\
  0 <= balance_of tid (serve_all qs u) /\
  (forall req : TokenRequest,
     balance_of (token_id (create_token req (payment (serve_all qs u))).1)
                (serve (Issue req) (serve_all qs u))
     = budget req).
Proof.
  intros Hqs Hu.
  pose proof (serve_all_preserves_nonneg qs u Hqs Hu) as H.
  split; [exact H|]. split; [by apply balance_of_nonneg|].
  intros req. apply balance_after_issue.
Qed.

Lemma C5_witness :
  balances_nonneg
    (serve_all [Issue (mkTokenRequest 10 "v1"); Balance "x";
                Pay (Marketplace.mkPayRequest "x" 10)] Scenario.backend0) /\
  0 <= balance_of "x"
         (serve_all [Issue (mkTokenRequest 10 "v1"); Balance "x";
                     Pay (Marketplace.mkPayRequest "x" 10)] Scenario.backend0) /\
  (forall req : TokenRequest,
     balance_of
       (token_id
          (create_token req
             (payment
                (serve_all [Issue (mkTokenRequest 10 "v1"); Balance "x";
                            Pay (Marketplace.mkPayRequest "x" 10)]
                   Scenario.backend0))).1)
       (serve (Issue req)
          (serve_all [Issue (mkTokenRequest 10 "v1"); Balance "x";
                      Pay (Marketplace.mkPayRequest "x" 10)] Scenario.backend0))
     = budget req).
Proof.
  apply (C5_balances_nonneg_if_budgets_are
           [Issue (mkTokenRequest 10 "v1"); Balance "x";
            Pay (Marketplace.mkPayRequest "x" 10)] Scenario.backend0 "x").
  - repeat constructor. simpl. lia.
  - unfold balances_nonneg. simpl. apply map_Forall_empty.
Defined.

Lemma serve_keeps_token (q : request) (u : backend) (tid : string) (b : Z) :
  never_redrawn tid (payment u) ->
  TOKENS (payment u) !! tid = Some b ->
  never_redrawn tid (payment (serve q u)) /\
  TOKENS (payment (serve q u)) !! tid = Some b.
Proof.
  intros Hfresh Hb. destruct q as [id tok|req|req|t]; simpl; try done.
  split.
  - intros n Hn. simpl in *. apply Hfresh. lia.
  - rewrite lookup_insert_ne; [exact Hb|]. apply Hfresh. lia.
Qed.

Lemma serve_all_keeps_token (qs : list request) (u : backend) (tid : string) (b : Z) :
  never_redrawn tid (payment u) ->
  TOKENS (payment u) !! tid = Some b ->
  TOKENS (payment (serve_all qs u)) !! tid = Some b.
Proof.
  revert u. induction qs as [|q qs IH]; intros u Hfresh Hb; simpl; [exact Hb|].
  destruct (serve_keeps_token q u tid b Hfresh Hb) as [Hf' Hb'].
  by apply IH.
Qed.

(** C10. Neither settlement nor balance lookup (nor the resource GET)
    touches the token store, and a later issuance writes only under its
    own fresh id; so after any sequence of backend requests the balance
    lookup of an issued token still answers its issuance budget. *)
Theorem C10_balance_frozen_at_issuance
    (u : backend) (req : TokenRequest) (qs : list request) :
  let issued := create_token req (payment u) in
  let u1 := mkBackend (market u) issued.2 in
  never_redrawn (token_id issued.1) issued.2 ->
  (forall pr, payment (serve (Pay pr) u1) = payment u1) /\
  (forall t, payment (serve (Balance t) u1) = payment u1) /\
  TOKENS (payment (serve_all qs u1)) !! token_id issued.1 = Some (budget req) /\
  balance_of (token_id issued.1) (serve_all qs u1) = budget req.
Proof.
  intros issued u1 Hfresh.
  assert (Hb : TOKENS (payment u1) !! token_id issued.1 = Some (budget req)).
  { subst u1 issued. rewrite create_token_eq. simpl. apply lookup_insert_eq. }
  pose proof (serve_all_keeps_token qs u1 _ _ Hfresh Hb) as Hk.
  repeat split; try done.
  unfold balance_of, get_balance. cbn [fst balance]. by rewrite Hk.
Qed.

Lemma C10_witness :
  let u := mkBackend Marketplace.init (mkState ∅ Scenario.two_ids) in
  let req := mkTokenRequest 10 "v1" in
  let qs := [Pay (Marketplace.mkPayRequest "x" 10); Balance "x";
             Issue (mkTokenRequest 3 "v2"); Detail "1" None] in
  let issued := create_token req (payment u) in
  let u1 := mkBackend (market u) issued.2 in
  (forall pr, payment (serve (Pay pr) u1) = payment u1) /\
  (forall t, payment (serve (Balance t) u1) = payment u1) /\
  TOKENS (payment (serve_all qs u1)) !! token_id issued.1 = Some (budget req) /\
  balance_of (token_id issued.1) (serve_all qs u1) = budget req.
Proof.
  intros u req qs.
  apply (C10_balance_frozen_at_issuance u req qs).
  intros n Hn. destruct n as [|n]; [simpl in Hn; lia|].
  vm_compute. discriminate.
Defined.

End TokenService.

(** ** The driver, against arbitrary upstreams *)

Section Driver.
Import Orchestrator Spec.
Context {U : Type}.
Variables mc pc : Client U.

Lemma bind_inr {S A B} (m : M S A) (k : A -> M S B) (s s' : S) (a : A) :
  m s = (inr a, s') -> bind m k s = k a s'.
Proof. intros H. unfold bind. by rewrite H. Qed.

Lemma bind_inl {S A B} (m : M S A) (k : A -> M S B) (s s' : S) (e : exn) :
  m s = (inl e, s') -> bind m k s = (inl e, s').
Proof. intros H. unfold bind. by rewrite H. Qed.

(** *** Only the last statement of [run_workflow] writes [TASKS] *)

Lemma keeps_ret {A} (a : A) : keeps_tasks (ret (S := world U) a).
Proof. by intros w. Qed.

Lemma keeps_lift {A} (r : exn + A) : keeps_tasks (lift (S := world U) r).
Proof. by intros w. Qed.

Lemma keeps_http_get to path tok : keeps_tasks (http_get mc pc to path tok).
Proof.
  intros w. unfold http_get.
  by destruct (c_get (client_of mc pc to) path tok (upstream w)).
Qed.

Lemma keeps_http_post to path b : keeps_tasks (http_post mc pc to path b).
Proof.
  intros w. unfold http_post.
  by destruct (c_post (client_of mc pc to) path b (upstream w)).
Qed.

Lemma keeps_bind {A B} (m : M (world U) A) (k : A -> M (world U) B) :
  keeps_tasks m -> (forall a, keeps_tasks (k a)) -> keeps_tasks (bind m k).
Proof.
  intros Hm Hk w. unfold bind. specialize (Hm w).
  destruct (m w) as [[e|a] w']; simpl in *; [done|].
  by rewrite Hk.
Qed.

Lemma keeps_pay_and_retry task r : keeps_tasks (pay_and_retry mc pc task r).
Proof.
  unfold pay_and_retry.
  repeat (first [apply keeps_bind; [|intros ?] | apply keeps_lift
                | apply keeps_http_post | apply keeps_http_get]).
Qed.

Lemma on_error_bind {A B} (m : M (world U) A) (k : A -> M (world U) B) :
  keeps_tasks m -> (forall a, keeps_tasks_on_error (k a)) ->
  keeps_tasks_on_error (bind m k).
Proof.
  intros Hm Hk w e. unfold bind. specialize (Hm w).
  destruct (m w) as [[e'|a] w']; simpl in *; [done|].
  intros He. rewrite (Hk a w' e He). exact Hm.
Qed.

Lemma on_error_set_report tid rep :
  keeps_tasks_on_error (set_report (U := U) tid rep).
Proof.
  intros w e. unfold set_report. by destruct (TASKS w !! tid).
Qed.

Lemma on_error_run_workflow tid : keeps_tasks_on_error (run_workflow mc pc tid).
Proof.
  intros w e. unfold run_workflow.
  destruct (TASKS w !! tid) as [task|]; [|done].
  destruct (decide (task = ∅)); [done|].
  revert w e.
  apply on_error_bind; [apply keeps_lift|]. intros theme.
  apply on_error_bind; [apply keeps_http_get|]. intros r.
  apply on_error_bind; [|intros r'; apply on_error_set_report].
  destruct (decide (status_code r = 402)); [apply keeps_pay_and_retry | apply keeps_ret].
Qed.

(** *** What a run puts on the wire *)

Lemma emits_weaken {A} (m : M (world U) A) (n n' : nat) :
  (n <= n')%nat -> emits m n -> emits m n'.
Proof.
  intros Hn Hm w. destruct (Hm w) as (l & Hl & Hc). exists l. split; [done|lia].
Qed.

Lemma emits_ret {A} (a : A) : emits (ret (S := world U) a) 0.
Proof. intros w. exists []. simpl. by rewrite app_nil_r. Qed.

Lemma emits_lift {A} (r : exn + A) : emits (lift (S := world U) r) 0.
Proof. intros w. exists []. simpl. by rewrite app_nil_r. Qed.

Lemma emits_set_report tid rep : emits (set_report (U := U) tid rep) 0.
Proof.
  intros w. exists []. unfold set_report.
  destruct (TASKS w !! tid); simpl; by rewrite app_nil_r.
Qed.

Lemma emits_http_post to path b : emits (http_post mc pc to path b) 0.
Proof.
  intros w. exists [Post to path b]. unfold http_post.
  by destruct (c_post (client_of mc pc to) path b (upstream w)).
Qed.

Lemma emits_http_get to path tok :
  emits (http_get mc pc to path tok) (if tok is Some _ then 1 else 0).
Proof.
  intros w. exists [Get to path tok]. unfold http_get.
  destruct (c_get (client_of mc pc to) path tok (upstream w)).
  split; [done|]. by destruct tok.
Qed.

Lemma token_gets_app (l1 l2 : list Call) :
  token_gets (l1 ++ l2)%list = (token_gets l1 + token_gets l2)%nat.
Proof. unfold token_gets. by rewrite filter_app, length_app. Qed.

Lemma emits_bind {A B} (m : M (world U) A) (k : A -> M (world U) B) (a b : nat) :
  emits m a -> (forall x, emits (k x) b) -> emits (bind m k) (a + b).
Proof.
  intros Hm Hk w. unfold bind. destruct (Hm w) as (l1 & Hl1 & Hc1).
  destruct (m w) as [[e|x] w']; simpl in *.
  - exists l1. split; [done|lia].
  - destruct (Hk x w') as (l2 & Hl2 & Hc2).
    exists (l1 ++ l2)%list. rewrite Hl2, Hl1, app_assoc, token_gets_app.
    split; [done|lia].
Qed.

Lemma emits_pay_and_retry task r : emits (pay_and_retry mc pc task r) 1.
Proof.
  unfold pay_and_retry.
  apply (emits_bind _ _ 0 1); [apply emits_lift|]; intros j.
  apply (emits_bind _ _ 0 1); [apply emits_lift|]; intros price.
  apply (emits_bind _ _ 0 1); [apply emits_lift|]; intros voice.
  apply (emits_bind _ _ 0 1); [apply emits_http_post|]; intros token_resp.
  apply (emits_bind _ _ 0 1); [apply emits_lift|]; intros tj.
  apply (emits_bind _ _ 0 1); [apply emits_lift|]; intros token_id.
  apply (emits_bind _ _ 0 1); [apply emits_http_post|]; intros _.
  apply (emits_bind _ _ 0 1); [apply emits_lift|]; intros hv.
  apply (emits_http_get ToMarketplace detail_path (Some hv)).
Qed.

Lemma emits_run_workflow tid : emits (run_workflow mc pc tid) 1.
Proof.
  intros w. unfold run_workflow.
  assert (Hskip : exists l, wire w = (wire w ++ l)%list /\ (token_gets l <= 1)%nat).
  { exists []. rewrite app_nil_r. split; [done|]. unfold token_gets. simpl. lia. }
  destruct (TASKS w !! tid) as [task|]; [|exact Hskip].
  destruct (decide (task = ∅)); [exact Hskip|]. clear Hskip.
  revert w.
  apply (emits_bind _ _ 0 1); [apply emits_lift|]; intros theme.
  apply (emits_bind _ _ 0 1); [apply (emits_http_get ToMarketplace detail_path None)|]; intros r.
  apply (emits_bind _ _ 1 0); [|intros r'; apply emits_set_report].
  destruct (decide (status_code r = 402)).
  - apply emits_pay_and_retry.
  - apply (emits_weaken _ 0 1); [lia | apply emits_ret].
Qed.

(** *** Single steps *)

Lemma http_get_eq to path tok (w : world U) r u :
  c_get (client_of mc pc to) path tok (upstream w) = (r, u) ->
  http_get mc pc to path tok w
  = (r, mkWorld (TASKS w) (rng w) u (wire w ++ [Get to path tok])).
Proof. intros H. unfold http_get. by rewrite H. Qed.

Lemma http_post_eq to path b (w : world U) r u :
  c_post (client_of mc pc to) path b (upstream w) = (r, u) ->
  http_post mc pc to path b w
  = (r, mkWorld (TASKS w) (rng w) u (wire w ++ [Post to path b])).
Proof. intros H. unfold http_post. by rewrite H. Qed.

Lemma task_with_theme_nonempty (task : gmap string pyval) (th : pyval) :
  task !! "theme" = Some th -> task <> ∅.
Proof. intros H E. rewrite E in H. by rewrite lookup_empty in H. Qed.

(** C8 (amended). [run_workflow] has no exception handling. With the task
    on record, every failure of the run escapes [run_workflow] as the very
    exception that was raised, at whichever step it occurs: a failure of the
    probe, of the token request, of the settlement or of the retried GET
    (an unreachable upstream or any other exception of the client), and a
    failure to decode or to use an answer (a refusal or a token answer that
    is not JSON, not an object, or lacks [token_id]; a record without
    [voice_id]; a token id that cannot serve as a header). And whenever an
    exception escapes, the task store is exactly what it was: no reason is
    recorded. *)
Theorem C8_failures_escape_unrecorded
    (tid : string) (w : world U) (task : gmap string pyval) (th : pyval) :
  TASKS w !! tid = Some task ->
  task !! "theme" = Some th ->
  (forall e u, c_get mc detail_path None (upstream w) = (inl e, u) ->
     (run_workflow mc pc tid w).1 = inl e) /\
  (forall r u, c_get mc detail_path None (upstream w) = (inr r, u) ->
     status_code r = 402 -> json_of r = inl JSONDecodeError ->
     (run_workflow mc pc tid w).1 = inl JSONDecodeError) /\
  (forall e, (run_workflow mc pc tid w).1 = inl e ->
     TASKS (run_workflow mc pc tid w).2 = TASKS w) /\
  (forall r1 u1,
     c_get mc detail_path None (upstream w) = (inr r1, u1) ->
     status_code r1 = 402 ->
     (forall e, json_of r1 = inl e -> (run_workflow mc pc tid w).1 = inl e) /\
     (forall j, json_of r1 = inr j ->
        (forall e, py_get j "price" (JInt 0) = inl e ->
           (run_workflow mc pc tid w).1 = inl e) /\
        (forall price, py_get j "price" (JInt 0) = inr price ->
           (task !! "voice_id" = None ->
              (run_workflow mc pc tid w).1 = inl (KeyError "voice_id")) /\
           (forall voice, task !! "voice_id" = Some voice ->
              (forall e u2,
                 c_post pc "/token"
                   (JObj [("budget", price); ("voice_id", json_of_pyval voice)]) u1
                 = (inl e, u2) ->
                 (run_workflow mc pc tid w).1 = inl e) /\
              (forall r2 u2,
                 c_post pc "/token"
                   (JObj [("budget", price); ("voice_id", json_of_pyval voice)]) u1
                 = (inr r2, u2) ->
                 (forall e, json_of r2 = inl e ->
                    (run_workflow mc pc tid w).1 = inl e) /\
                 (forall tj, json_of r2 = inr tj ->
                    (forall e, py_item tj "token_id" = inl e ->
                       (run_workflow mc pc tid w).1 = inl e) /\
                    (forall token_id, py_item tj "token_id" = inr token_id ->
                       (forall e u3,
                          c_post mc "/pay"
                            (JObj [("tokenId", token_id); ("amount", price)]) u2
                          = (inl e, u3) ->
                          (run_workflow mc pc tid w).1 = inl e) /\
                       (forall r3 u3,
                          c_post mc "/pay"
                            (JObj [("tokenId", token_id); ("amount", price)]) u2
                          = (inr r3, u3) ->
                          (forall e, header_value token_id = inl e ->
                             (run_workflow mc pc tid w).1 = inl e) /\
                          (forall hv e u4,
                             header_value token_id = inr hv ->
                             c_get mc detail_path (Some hv) u3 = (inl e, u4) ->
                             (run_workflow mc pc tid w).1 = inl e))))))))).
Proof.
  intros Ht Hth. pose proof (task_with_theme_nonempty task th Hth) as Hne.
  split; [|split; [|split]].
  - intros e u Hget. unfold run_workflow. rewrite Ht.
    destruct (decide (task = ∅)); [done|].
    unfold lift, getitem. rewrite Hth.
    erewrite bind_inr by reflexivity.
    erewrite bind_inl by (apply http_get_eq; exact Hget). reflexivity.
  - intros r u Hget H402 Hjson. unfold run_workflow. rewrite Ht.
    destruct (decide (task = ∅)); [done|].
    unfold lift, getitem. rewrite Hth.
    erewrite bind_inr by reflexivity.
    erewrite bind_inr by (apply http_get_eq; exact Hget).
    destruct (decide (status_code r = 402)); [|done].
    unfold pay_and_retry, lift. rewrite Hjson.
    erewrite bind_inl; [reflexivity|].
    erewrite bind_inl; reflexivity.
  - intros e. apply on_error_run_workflow.
  - intros r1 u1 Hprobe H402.
    assert (Hrun : forall x,
      (pay_and_retry mc pc task r1
         (mkWorld (TASKS w) (rng w) u1 (wire w ++ [Get ToMarketplace detail_path None]))).1
      = inl x ->
      (run_workflow mc pc tid w).1 = inl x).
    { intros x Hx. unfold run_workflow. rewrite Ht.
      destruct (decide (task = ∅)); [done|].
      unfold lift, getitem. rewrite Hth.
      erewrite bind_inr by reflexivity.
      erewrite bind_inr by (apply http_get_eq; exact Hprobe).
      destruct (decide (status_code r1 = 402)); [|done].
      unfold bind at 1.
      destruct (pay_and_retry mc pc task r1 _) as [[x'|r'] w']; simpl in *; congruence. }
    unfold pay_and_retry, lift in Hrun.
    split.
    { intros e He. apply Hrun. rewrite He. erewrite bind_inl; reflexivity. }
    intros j Hj. rewrite Hj in Hrun.
    erewrite bind_inr in Hrun by reflexivity.
    split.
    { intros e He. apply Hrun. rewrite He. erewrite bind_inl; reflexivity. }
    intros price Hp. rewrite Hp in Hrun.
    erewrite bind_inr in Hrun by reflexivity.
    unfold getitem in Hrun.
    split.
    { intros Hv. apply Hrun. rewrite Hv. erewrite bind_inl; reflexivity. }
    intros voice Hv. rewrite Hv in Hrun.
    erewrite bind_inr in Hrun by reflexivity.
    split.
    { intros e u2 He. apply Hrun.
      erewrite bind_inl by (apply http_post_eq; exact He). reflexivity. }
    intros r2 u2 Hissue.
    erewrite bind_inr in Hrun by (apply http_post_eq; exact Hissue).
    split.
    { intros e He. apply Hrun. rewrite He. erewrite bind_inl; reflexivity. }
    intros tj Htj. rewrite Htj in Hrun.
    erewrite bind_inr in Hrun by reflexivity.
    split.
    { intros e He. apply Hrun. rewrite He. erewrite bind_inl; reflexivity. }
    intros token_id Htok. rewrite Htok in Hrun.
    erewrite bind_inr in Hrun by reflexivity.
    split.
    { intros e u3 He. apply Hrun.
      erewrite bind_inl by (apply http_post_eq; exact He). reflexivity. }
    intros r3 u3 Hpay.
    erewrite bind_inr in Hrun by (apply http_post_eq; exact Hpay).
    split.
    { intros e He. apply Hrun. rewrite He. erewrite bind_inl; reflexivity. }
    intros hv e u4 Hhv Hretry. apply Hrun. rewrite Hhv.
    erewrite bind_inr by reflexivity.
    erewrite http_get_eq by exact Hretry. reflexivity.
Qed.

(** C6 (amended). No failure state exists in the driver: when the GET
    retried with the token is refused again, [run_workflow] returns normally
    and stores the refusal's text as the report. It does not retry further:
    in every run, against any upstream, at most one token-carrying GET is
    put on the wire. *)
Theorem C6_one_retry_and_refusal_stored_as_report (tid : string) (w : world U) :
  (exists l, wire (run_workflow mc pc tid w).2 = (wire w ++ l)%list /\
             (token_gets l <= 1)%nat) /\
  (forall task th v r1 u1 j price r2 u2 tj tok r3 u3 r4 u4,
     TASKS w !! tid = Some task ->
     task !! "theme" = Some th ->
     task !! "voice_id" = Some v ->
     c_get mc detail_path None (upstream w) = (inr r1, u1) ->
     status_code r1 = 402 ->
     json_of r1 = inr j ->
     py_get j "price" (JInt 0) = inr price ->
     c_post pc "/token"
       (JObj [("budget", price); ("voice_id", json_of_pyval v)]) u1 = (inr r2, u2) ->
     json_of r2 = inr tj ->
     py_item tj "token_id" = inr (JStr tok) ->
     c_post mc "/pay" (JObj [("tokenId", JStr tok); ("amount", price)]) u2
       = (inr r3, u3) ->
     c_get mc detail_path (Some tok) u3 = (inr r4, u4) ->
     status_code r4 = 402 ->
     run_workflow mc pc tid w
     = (inr tt,
        mkWorld (<[tid := <["report" := VStr (render_report th r4)]> task]> (TASKS w))
          (rng w) u4
          (wire w ++
           [Get ToMarketplace detail_path None;
            Post ToPayment "/token"
              (JObj [("budget", price); ("voice_id", json_of_pyval v)]);
            Post ToMarketplace "/pay" (JObj [("tokenId", JStr tok); ("amount", price)]);
            Get ToMarketplace detail_path (Some tok)]))).
Proof.
  split; [apply emits_run_workflow|].
  intros task th v r1 u1 j price r2 u2 tj tok r3 u3 r4 u4
         Ht Hth Hv Hprobe H402 Hj Hprice Hissue Htj Htok Hpay Hretry _.
  unfold run_workflow. rewrite Ht.
  destruct (decide (task = ∅)) as [E|_];
    [by destruct (task_with_theme_nonempty task th Hth)|].
  unfold lift, getitem. rewrite Hth.
  erewrite bind_inr by reflexivity.
  erewrite bind_inr by (apply http_get_eq; exact Hprobe).
  destruct (decide (status_code r1 = 402)); [|done].
  assert (Hbranch :
    pay_and_retry mc pc task r1
      (mkWorld (TASKS w) (rng w) u1 (wire w ++ [Get ToMarketplace detail_path None]))
    = (inr r4,
       mkWorld (TASKS w) (rng w) u4
         ((((wire w ++ [Get ToMarketplace detail_path None]) ++
            [Post ToPayment "/token"
               (JObj [("budget", price); ("voice_id", json_of_pyval v)])]) ++
           [Post ToMarketplace "/pay" (JObj [("tokenId", JStr tok); ("amount", price)])]) ++
          [Get ToMarketplace detail_path (Some tok)]))).
  { unfold pay_and_retry, lift, getitem. rewrite Hj.
    erewrite bind_inr by reflexivity. rewrite Hprice.
    erewrite bind_inr by reflexivity. rewrite Hv.
    erewrite bind_inr by reflexivity.
    erewrite bind_inr by (apply http_post_eq; exact Hissue).
    rewrite Htj.
    erewrite bind_inr by reflexivity. rewrite Htok.
    erewrite bind_inr by reflexivity.
    erewrite bind_inr by (apply http_post_eq; exact Hpay).
    erewrite bind_inr by reflexivity.
    erewrite http_get_eq by exact Hretry. reflexivity. }
  erewrite bind_inr by exact Hbranch.
  unfold set_report. cbn [TASKS rng upstream wire]. rewrite Ht.
  rewrite <- !app_assoc. reflexivity.
Qed.

End Driver.

(** *** Runs against failing and refusing upstreams *)

Section DriverExamples.
Import Orchestrator Deployment Spec Scenario.

(** C8, as stated, fails: with the upstream unreachable the transport
    error leaves [run_workflow] as an exception, and so does the decoding
    error of a refusal that is not JSON; in both runs the task record is
    untouched: nothing is caught, no reason is recorded. *)
Lemma C8_counterexample :
  let out := Orchestrator.run_workflow unreachable unreachable "t" (on_record tt) in
  let out' := Orchestrator.run_workflow garbled_marketplace payment_client "t"
                (on_record backend0) in
  out.1 = inl TransportError /\
  TASKS out.2 = TASKS (on_record tt) /\
  ~ caught_and_recorded out "t" /\
  out'.1 = inl JSONDecodeError /\
  TASKS out'.2 = TASKS (on_record backend0) /\
  ~ caught_and_recorded out' "t".
Proof.
  vm_compute. repeat split; intros [H _]; discriminate H.
Qed.

Lemma C8_witness :
  let out := Orchestrator.run_workflow unreachable unreachable "t" (on_record tt) in
  let out' := Orchestrator.run_workflow marketplace_client Cases.offline_payment "t"
                (on_record backend0) in
  out.1 = inl TransportError /\
  TASKS out.2 = TASKS (on_record tt) /\
  out'.1 = inl TransportError /\
  TASKS out'.2 = TASKS (on_record backend0).
Proof.
  intros out out'.
  destruct (C8_failures_escape_unrecorded unreachable unreachable "t" (on_record tt)
              (dict (mkTaskRequest "test" 50 "v1")) (VStr "test"))
    as (Hprobe & _ & Hkeep & _); [reflexivity | reflexivity |].
  destruct (C8_failures_escape_unrecorded marketplace_client Cases.offline_payment "t"
              (on_record backend0)
              (dict (mkTaskRequest "test" 50 "v1")) (VStr "test"))
    as (_ & _ & Hkeep' & Hpaid); [reflexivity | reflexivity |].
  assert (H1 : out.1 = inl TransportError).
  { apply (Hprobe TransportError tt). reflexivity. }
  assert (H2 : out'.1 = inl TransportError).
  { destruct (Hpaid refusal backend0) as (_ & Hj); [reflexivity | reflexivity |].
    destruct (Hj (JObj [("detail", JObj [("price", JInt 10)])])) as (_ & Hp);
      [reflexivity|].
    destruct (Hp (JInt 0)) as (_ & Hv); [reflexivity|].
    destruct (Hv (VStr "v1")) as (Hpost & _); [reflexivity|].
    apply (Hpost TransportError backend0). reflexivity. }
  split; [exact H1|]. split; [exact (Hkeep _ H1)|].
  split; [exact H2 | exact (Hkeep' _ H2)].
Defined.

(** C6, as stated, fails: against a server that refuses the retried GET,
    the run ends normally with the refusal stored as the report; the record
    is not failed and carries no [PaymentNotHonored]. *)
Lemma C6_counterexample :
  let w := on_record backend0 in
  let out := Orchestrator.run_workflow refusing_marketplace payment_client "t" w in
  (forall tok u, (c_get refusing_marketplace detail_path (Some tok) u).1
                 = inr (mkResponse 402 (BJson (JObj [("price", JInt 10)])))) /\
  out.1 = inr tt /\
  TASKS out.2 !! "t"
  = Some (<["report" := VStr refused_report]> (dict (mkTaskRequest "test" 50 "v1"))) /\
  ~ (exists t, TASKS out.2 !! "t" = Some t /\ failed_with "PaymentNotHonored" t).
Proof.
  split; [reflexivity|]. split; [reflexivity|]. split; [reflexivity|].
  intros (t & Ht & Hs & _).
  assert (E : TASKS (Orchestrator.run_workflow refusing_marketplace payment_client "t" (on_record backend0)).2 !! "t"
  = Some (<["report" := VStr refused_report]> (dict (mkTaskRequest "test" 50 "v1")))) by reflexivity.
  rewrite E in Ht. injection Ht as <-. unfold has_status in Hs.
  vm_compute in Hs. discriminate Hs.
Qed.

Lemma C6_witness :
  let w := on_record backend0 in
  let tok := next_token w in
  Orchestrator.run_workflow refusing_marketplace payment_client "t" w
  = (inr tt,
     mkWorld (<["t" := <["report" := VStr refused_report]>
                         (dict (mkTaskRequest "test" 50 "v1"))]> (TASKS w))
       (rng w) (after_issue w 10)
       (wire w ++
        [Get ToMarketplace detail_path None;
         Post ToPayment "/token" (JObj [("budget", JInt 10); ("voice_id", JStr "v1")]);
         Post ToMarketplace "/pay" (JObj [("tokenId", JStr tok); ("amount", JInt 10)]);
         Get ToMarketplace detail_path (Some tok)])).
Proof.
  intros w tok.
  eapply (proj2 (C6_one_retry_and_refusal_stored_as_report
                   refusing_marketplace payment_client "t" w)
            (dict (mkTaskRequest "test" 50 "v1")) (VStr "test") (VStr "v1")
            (mkResponse 402 (BJson (JObj [("price", JInt 10)]))) backend0
            (JObj [("price", JInt 10)]) (JInt 10)
            (mkResponse 200 (BJson (JObj [("token_id", JStr tok); ("expire_in", JInt 3600)])))
            (after_issue w 10)
            (JObj [("token_id", JStr tok); ("expire_in", JInt 3600)]) tok
            (mkResponse 200 (BJson (JObj [("success", JBool true)]))) (after_issue w 10)
            (mkResponse 402 (BJson (JObj [("price", JInt 10)]))) (after_issue w 10));
    reflexivity.
Defined.
End DriverExamples.

(** ** The driver against the real services *)

Section Deployed.
Import Orchestrator Deployment Spec.

Lemma deployed_probe (w : world backend) :
  http_get marketplace_client payment_client ToMarketplace detail_path None w
  = (inr refusal,
     mkWorld (TASKS w) (rng w) (upstream w)
       (wire w ++ [Get ToMarketplace detail_path None])).
Proof. destruct w as [T g [m p] wr]. reflexivity. Qed.

Lemma deployed_issue (w : world backend) (b : Z) (v : string) :
  http_post marketplace_client payment_client ToPayment "/token"
    (JObj [("budget", JInt b); ("voice_id", JStr v)]) w
  = (inr (mkResponse 200
            (BJson (JObj [("token_id", JStr (next_token w)); ("expire_in", JInt 3600)]))),
     mkWorld (TASKS w) (rng w) (after_issue w b)
       (wire w ++ [Post ToPayment "/token"
                     (JObj [("budget", JInt b); ("voice_id", JStr v)])])).
Proof. destruct w as [T g [m [toks [src n]]] wr]. reflexivity. Qed.

Lemma deployed_pay (w : world backend) (tok : string) (a : Z) :
  http_post marketplace_client payment_client ToMarketplace "/pay"
    (JObj [("tokenId", JStr tok); ("amount", JInt a)]) w
  = (inr (mkResponse 200 (BJson (JObj [("success", JBool true)]))),
     mkWorld (TASKS w) (rng w) (upstream w)
       (wire w ++ [Post ToMarketplace "/pay"
                     (JObj [("tokenId", JStr tok); ("amount", JInt a)])])).
Proof. destruct w as [T g [m p] wr]. reflexivity. Qed.

Lemma deployed_retry (w : world backend) (tok : string) :
  tok <> "" ->
  http_get marketplace_client payment_client ToMarketplace detail_path (Some tok) w
  = (inr (granted w),
     mkWorld (TASKS w) (rng w) (upstream w)
       (wire w ++ [Get ToMarketplace detail_path (Some tok)])).
Proof.
  intros Htok. destruct w as [T g [m p] wr].
  unfold http_get, granted. cbn [client_of c_get marketplace_client upstream market].
  unfold Marketplace.route_get. rewrite strip_prefix_detail_path.
  unfold Marketplace.get_detail. rewrite truthy_nonempty by done. reflexivity.
Qed.

(** The payment branch against the real services: the driver finds no
    top-level [price] in the refusal and goes on with its default, 0. *)
Lemma deployed_pay_and_retry (w : world backend) (task : gmap string pyval) (v : string) :
  task !! "voice_id" = Some (VStr v) ->
  pay_and_retry marketplace_client payment_client task refusal w
  = (inr (granted w),
     mkWorld (TASKS w) (rng w) (after_issue w 0)
       (wire w ++ settlement_calls 0 v (next_token w))).
Proof.
  intros Hv. unfold pay_and_retry, lift, getitem. rewrite Hv.
  erewrite bind_inr by reflexivity.
  erewrite bind_inr by reflexivity.
  erewrite bind_inr by reflexivity.
  cbn [json_of_pyval].
  erewrite bind_inr by apply deployed_issue.
  erewrite bind_inr by reflexivity.
  erewrite bind_inr by reflexivity.
  erewrite bind_inr by apply deployed_pay.
  erewrite bind_inr by reflexivity.
  rewrite deployed_retry by apply uuid_str_nonempty.
  cbn [TASKS rng upstream wire]. unfold granted, after_issue, settlement_calls.
  cbn [upstream market]. rewrite <- !app_assoc. reflexivity.
Qed.

(** One scheduled execution against the real services, for any record
    with a theme and a string [voice_id]. *)
Lemma run_workflow_deployed (w : world backend) (tid : string)
    (task : gmap string pyval) (th : pyval) (v : string) :
  TASKS w !! tid = Some task ->
  task !! "theme" = Some th ->
  task !! "voice_id" = Some (VStr v) ->
  run_workflow tid w
  = (inr tt,
     mkWorld
       (<[tid := <["report" := VStr (render_report th (granted w))]> task]> (TASKS w))
       (rng w) (after_issue w 0)
       (wire w ++ handshake 0 v (next_token w))).
Proof.
  intros Ht Hth Hv.
  unfold run_workflow, Orchestrator.run_workflow. rewrite Ht.
  destruct (decide (task = ∅)) as [E|_];
    [by destruct (task_with_theme_nonempty task th Hth)|].
  unfold lift, getitem. rewrite Hth.
  erewrite bind_inr by reflexivity.
  erewrite bind_inr by apply deployed_probe.
  cbn [status_code refusal]. destruct (decide (402 = 402)) as [_|[]]; [|done].
  erewrite bind_inr by (apply deployed_pay_and_retry; exact Hv).
  unfold set_report. cbn [TASKS rng upstream wire]. rewrite Ht.
  unfold handshake. rewrite <- !app_assoc. reflexivity.
Qed.

Lemma dict_theme req : dict req !! "theme" = Some (VStr (theme req)).
Proof. reflexivity. Qed.

Lemma dict_voice_id req : dict req !! "voice_id" = Some (VStr (voice_id req)).
Proof. reflexivity. Qed.

Lemma dict_budget req : dict req !! "budget" = Some (VInt (budget req)).
Proof. reflexivity. Qed.

Lemma dict_other req k :
  k <> "theme" -> k <> "budget" -> k <> "voice_id" -> dict req !! k = None.
Proof.
  intros H1 H2 H3. unfold dict.
  rewrite !lookup_insert_ne by done. apply lookup_empty.
Qed.

Lemma reported_fields req rep k :
  k <> "theme" -> k <> "budget" -> k <> "voice_id" -> k <> "report" ->
  (<["report" := VStr rep]> (dict req) : gmap string pyval) !! k = None.
Proof.
  intros H1 H2 H3 H4. rewrite lookup_insert_ne by done. by apply dict_other.
Qed.


Lemma mentions_nowhere_reported (req : TaskRequest) (rep s : string) :
  theme req <> s -> voice_id req <> s -> rep <> s ->
  mentions_nowhere s (<["report" := VStr rep]> (dict req)).
Proof.
  intros H1 H2 H3. unfold mentions_nowhere, dict.
  repeat (apply map_Forall_insert_2; [congruence|]).
  apply map_Forall_empty.
Qed.

Lemma token_requests_handshake price v tok :
  token_requests (handshake price v tok) = 1%nat.
Proof. reflexivity. Qed.

(** C1 (amended). [run_workflow] never reads the task's budget. For every
    task whose budget is below the quoted price, the scheduled execution
    does not fail: it returns normally, runs the full handshake (probe, one
    token request, settlement, retried GET), the Token Service issues one
    token, and the report is stored on the task record, which gets neither a
    status nor a reason field. The outcome does not depend on the budget:
    whatever budget the record holds, below the price or not, the same
    requests are sent, the same token is issued for the same amount, and the
    same report is stored. *)
Theorem C1_budget_never_consulted
    (w : world backend) (tid : string) (req : TaskRequest) (p : Z) :
  quoted (Marketplace.get_detail "1" None (market (upstream w))).1 = Some p ->
  budget req < p ->
  TASKS w !! tid = Some (dict req) ->
  exists price : Z,
    let report := render_report (VStr (theme req)) (granted w) in
    let l := handshake price (voice_id req) (next_token w) in
    run_workflow tid w
    = (inr tt,
       mkWorld (<[tid := <["report" := VStr report]> (dict req)]> (TASKS w))
         (rng w) (after_issue w price) (wire w ++ l)) /\
    token_requests l = 1%nat /\
    (<["report" := VStr report]> (dict req) : gmap string pyval) !! "status" = None /\
    (<["report" := VStr report]> (dict req) : gmap string pyval) !! "error" = None /\
    (forall b' : Z,
       run_workflow tid (with_record w tid (dict (with_budget req b')))
       = (inr tt,
          mkWorld (<[tid := <["report" := VStr report]> (dict (with_budget req b'))]>
                     (TASKS w))
            (rng w) (after_issue w price) (wire w ++ l))).
Proof.
  intros _ _ Ht. exists 0. cbv zeta.
  split; [|split; [apply token_requests_handshake|]].
  - apply run_workflow_deployed; [exact Ht | apply dict_theme | apply dict_voice_id].
  - split; [by apply reported_fields|]. split; [by apply reported_fields|].
    intros b'.
    rewrite (run_workflow_deployed (with_record w tid (dict (with_budget req b'))) tid
               (dict (with_budget req b')) (VStr (theme req)) (voice_id req));
      [|apply lookup_insert_eq | reflexivity | reflexivity].
    unfold with_record. cbn [TASKS rng wire]. by rewrite insert_insert_eq.
Qed.

Lemma C1_witness :
  let w := (Scenario.submitted 5).2 in
  let tid := task_id (Scenario.submitted 5).1 in
  let req := mkTaskRequest "test" 5 "v1" in
  exists price : Z,
    let report := render_report (VStr (theme req)) (granted w) in
    let l := handshake price (voice_id req) (next_token w) in
    run_workflow tid w
    = (inr tt,
       mkWorld (<[tid := <["report" := VStr report]> (dict req)]> (TASKS w))
         (rng w) (after_issue w price) (wire w ++ l)) /\
    token_requests l = 1%nat /\
    (<["report" := VStr report]> (dict req) : gmap string pyval) !! "status" = None /\
    (<["report" := VStr report]> (dict req) : gmap string pyval) !! "error" = None /\
    (forall b' : Z,
       run_workflow tid (with_record w tid (dict (with_budget req b')))
       = (inr tt,
          mkWorld (<[tid := <["report" := VStr report]> (dict (with_budget req b'))]>
                     (TASKS w))
            (rng w) (after_issue w price) (wire w ++ l))).
Proof.
  apply (C1_budget_never_consulted (Scenario.submitted 5).2
           (task_id (Scenario.submitted 5).1) (mkTaskRequest "test" 5 "v1") 10).
  - reflexivity.
  - simpl. lia.
  - reflexivity.
Defined.

Lemma executed_record (b : Z) :
  Scenario.record_of b (Scenario.executed b).2
  = <["report" := VStr (render_report (VStr "test") (granted (Scenario.submitted b).2))]>
      (dict (mkTaskRequest "test" b "v1")).
Proof.
  unfold Scenario.record_of, Scenario.executed.
  rewrite (run_workflow_deployed _ _ (dict (mkTaskRequest "test" b "v1"))
             (VStr "test") "v1"); [|reflexivity..].
  cbn [snd TASKS]. by rewrite lookup_insert_eq.
Qed.

(** C1, as stated, fails: with budget 5 against the price 10 the record
    is not failed with [BudgetExceeded], and the token store has grown. *)
Lemma C1_counterexample :
  quoted (Marketplace.get_detail "1" None
            (market (upstream (Scenario.submitted 5).2))).1 = Some 10 /\
  5 < 10 /\
  (Scenario.executed 5).1 = inr tt /\
  ~ failed_with "BudgetExceeded" (Scenario.record_of 5 (Scenario.executed 5).2) /\
  mentions_nowhere "failed" (Scenario.record_of 5 (Scenario.executed 5).2) /\
  size (tokens_of (Scenario.submitted 5).2) = 0%nat /\
  size (tokens_of (Scenario.executed 5).2) = 1%nat.
Proof.
  split; [reflexivity|]. split; [lia|]. split; [reflexivity|].
  rewrite executed_record.
  split; [|split; [|split; reflexivity]].
  - intros [Hs _]. unfold has_status in Hs.
    rewrite reported_fields in Hs by done. discriminate Hs.
  - apply mentions_nowhere_reported; discriminate.
Qed.

(** C2 (amended). For every task whose budget covers the quoted price,
    the scheduled execution returns normally and the report stored on the
    task record is the heading [## <theme>], a blank line, and the JSON
    text of the fetched resource record. The record gets no status field:
    the code keeps no task status. *)
Theorem C2_report_holds_resource_text
    (w : world backend) (tid : string) (req : TaskRequest) (p : Z) (rec : json) :
  quoted (Marketplace.get_detail "1" None (market (upstream w))).1 = Some p ->
  p <= budget req ->
  Marketplace.DETAIL (market (upstream w)) !! "1" = Some rec ->
  TASKS w !! tid = Some (dict req) ->
  (run_workflow tid w).1 = inr tt /\
  TASKS (run_workflow tid w).2 !! tid
  = Some (<["report" := VStr ("## " +:+ theme req +:+
                              String newline (String newline "") +:+ dumps rec)]>
            (dict req)) /\
  (forall t, TASKS (run_workflow tid w).2 !! tid = Some t -> t !! "status" = None).
Proof.
  intros _ _ Hrec Ht.
  rewrite (run_workflow_deployed w tid (dict req) (VStr (theme req)) (voice_id req)
             Ht (dict_theme req) (dict_voice_id req)).
  cbn [fst snd TASKS]. rewrite lookup_insert_eq.
  unfold render_report, granted, text. cbn [content py_str]. rewrite Hrec. cbn [default].
  split; [done|]. split; [done|].
  intros t [= <-]. by apply reported_fields.
Qed.

Lemma C2_witness :
  (Scenario.executed 50).1 = inr tt /\
  TASKS (Scenario.executed 50).2 !! task_id (Scenario.submitted 50).1
  = Some (<["report" := VStr ("## " +:+ "test" +:+
                              String newline (String newline "") +:+ dumps Scenario.acme)]>
            (dict (mkTaskRequest "test" 50 "v1"))) /\
  (forall t, TASKS (Scenario.executed 50).2 !! task_id (Scenario.submitted 50).1 = Some t ->
             t !! "status" = None).
Proof.
  apply (C2_report_holds_resource_text (Scenario.submitted 50).2
           (task_id (Scenario.submitted 50).1) (mkTaskRequest "test" 50 "v1") 10 Scenario.acme).
  - reflexivity.
  - simpl. lia.
  - reflexivity.
  - reflexivity.
Defined.

(** C2, as stated, fails on the status: after a run with budget 50 the
    record has no [status], and [completed] appears nowhere in it. *)
Lemma C2_counterexample :
  quoted (Marketplace.get_detail "1" None
            (market (upstream (Scenario.submitted 50).2))).1 = Some 10 /\
  10 <= 50 /\
  (Scenario.executed 50).1 = inr tt /\
  ~ completed (Scenario.record_of 50 (Scenario.executed 50).2) /\
  mentions_nowhere "completed" (Scenario.record_of 50 (Scenario.executed 50).2).
Proof.
  split; [reflexivity|]. split; [lia|]. split; [reflexivity|].
  rewrite executed_record. split.
  - unfold completed, has_status. rewrite reported_fields by done. discriminate.
  - apply mentions_nowhere_reported; discriminate.
Qed.

(** The assertion of tests/test_workflow.py ([report and 'ACME Corp' in
    report]) on the record left by the handler and one run with the two
    services as clients. *)
Example report_mentions_company :
  exists report,
    Scenario.record_of 50 (Scenario.executed 50).2 !! "report" = Some (VStr report) /\
    contains "ACME Corp" report = true.
Proof. eexists. split; [reflexivity|]. reflexivity. Qed.

(** C3 (amended). There is no status guard. Invoking the scheduled
    execution again for a task that already holds its report repeats the
    whole handshake: the same four requests go out again (probe, token
    request, settlement and retried GET, for the same price as in the first
    run, with the newly issued token), and the Token Service issues one
    more token for that price (the store grows by one when the new id is
    fresh). The report is rewritten with the same text, so the task store
    is unchanged. *)
Theorem C3_second_run_repeats_handshake
    (w : world backend) (tid : string) (req : TaskRequest) :
  TASKS w !! tid = Some (dict req) ->
  let w1 := (run_workflow tid w).2 in
  let out := run_workflow tid w1 in
  out.1 = inr tt /\
  TASKS out.2 = TASKS w1 /\
  (exists bal, upstream out.2 = after_issue w1 bal) /\
  (exists l, wire out.2 = (wire w1 ++ l)%list /\ token_requests l = 1%nat) /\
  (tokens_of w1 !! next_token w1 = None ->
   size (tokens_of out.2) = S (size (tokens_of w1))) /\
  (exists price : Z,
     wire w1 = (wire w ++ handshake price (voice_id req) (next_token w))%list /\
     upstream w1 = after_issue w price /\
     wire out.2 = (wire w1 ++ handshake price (voice_id req) (next_token w1))%list /\
     upstream out.2 = after_issue w1 price /\
     rng out.2 = rng w1).
Proof.
  intros Ht w1 out.
  pose proof (run_workflow_deployed w tid (dict req) (VStr (theme req)) (voice_id req)
                Ht (dict_theme req) (dict_voice_id req)) as H1.
  set (rep := render_report (VStr (theme req)) (granted w)) in *.
  assert (Ht1 : TASKS w1 !! tid = Some (<["report" := VStr rep]> (dict req))).
  { subst w1. rewrite H1. cbn [snd TASKS]. apply lookup_insert_eq. }
  assert (Hg : granted w1 = granted w).
  { subst w1. rewrite H1. reflexivity. }
  assert (Hw1 : wire w1 = (wire w ++ handshake 0 (voice_id req) (next_token w))%list /\
                upstream w1 = after_issue w 0).
  { subst w1. rewrite H1. by split. }
  assert (H2 : out = (inr tt,
     mkWorld (<[tid := <["report" := VStr rep]> (<["report" := VStr rep]> (dict req))]> (TASKS w1))
       (rng w1) (after_issue w1 0)
       (wire w1 ++ handshake 0 (voice_id req) (next_token w1)))).
  { subst out rep. rewrite <- Hg at 1.
    apply run_workflow_deployed; [exact Ht1| |].
    - rewrite lookup_insert_ne by done. apply dict_theme.
    - rewrite lookup_insert_ne by done. apply dict_voice_id. }
  rewrite H2. cbn [fst snd TASKS upstream wire rng].
  split; [done|]. split; [|split; [by exists 0|split; [|split]]].
  - rewrite insert_insert_eq. by apply insert_id.
  - eexists. split; [reflexivity|]. apply token_requests_handshake.
  - intros Hfresh. unfold tokens_of, after_issue. cbn [upstream payment PaymentManager.TOKENS].
    by apply map_size_insert_None.
  - exists 0. destruct Hw1 as [Hwire Hup]. by repeat split.
Qed.

Lemma C3_witness :
  let w := (Scenario.submitted 50).2 in
  let req := mkTaskRequest "test" 50 "v1" in
  let w1 := (Scenario.executed 50).2 in
  let out := run_workflow (task_id (Scenario.submitted 50).1) w1 in
  out.1 = inr tt /\
  TASKS out.2 = TASKS w1 /\
  (exists bal, upstream out.2 = after_issue w1 bal) /\
  (exists l, wire out.2 = (wire w1 ++ l)%list /\ token_requests l = 1%nat) /\
  (tokens_of w1 !! next_token w1 = None ->
   size (tokens_of out.2) = S (size (tokens_of w1))) /\
  (exists price : Z,
     wire w1 = (wire w ++ handshake price (voice_id req) (next_token w))%list /\
     upstream w1 = after_issue w price /\
     wire out.2 = (wire w1 ++ handshake price (voice_id req) (next_token w1))%list /\
     upstream out.2 = after_issue w1 price /\
     rng out.2 = rng w1).
Proof.
  apply (C3_second_run_repeats_handshake (Scenario.submitted 50).2
           (task_id (Scenario.submitted 50).1) (mkTaskRequest "test" 50 "v1")).
  reflexivity.
Defined.

(** C3, as stated, fails: the second run for a task that already holds
    its report issues a second token. *)
Lemma C3_counterexample :
  let tid := task_id (Scenario.submitted 50).1 in
  let w1 := (Scenario.executed 50).2 in
  let out := run_workflow tid w1 in
  (exists rep, Scenario.record_of 50 w1 !! "report" = Some (VStr rep)) /\
  size (tokens_of w1) = 1%nat /\
  size (tokens_of out.2) = 2%nat /\
  token_requests (wire w1) = 1%nat /\
  token_requests (wire out.2) = 2%nat.
Proof.
  split; [eexists; reflexivity|]. repeat split; reflexivity.
Qed.

(** C7. The code at the failing input. The handler quotes 10, but the
    refusal reaches the driver as [{"detail": {"price": 10}}]; the driver's
    [.get("price", 0)] on the top level finds nothing and yields 0; the
    token is requested, issued and settled for 0, not for the quoted 10. *)
Theorem C7_price_read_as_zero
    (w : world backend) (tid : string) (req : TaskRequest) :
  TASKS w !! tid = Some (dict req) ->
  quoted (Marketplace.get_detail "1" None (market (upstream w))).1 = Some 10 /\
  (c_get marketplace_client detail_path None (upstream w)).1
  = inr (mkResponse 402 (BJson (JObj [("detail", JObj [("price", JInt 10)])]))) /\
  py_get (JObj [("detail", JObj [("price", JInt 10)])]) "price" (JInt 0)
  = inr (JInt 0) /\
  wire (run_workflow tid w).2
  = (wire w ++
     [Get ToMarketplace detail_path None;
      Post ToPayment "/token"
        (JObj [("budget", JInt 0); ("voice_id", JStr (voice_id req))]);
      Post ToMarketplace "/pay"
        (JObj [("tokenId", JStr (next_token w)); ("amount", JInt 0)]);
      Get ToMarketplace detail_path (Some (next_token w))])%list /\
  tokens_of (run_workflow tid w).2 !! next_token w = Some 0.
Proof.
  intros Ht.
  rewrite (run_workflow_deployed w tid (dict req) (VStr (theme req)) (voice_id req)
             Ht (dict_theme req) (dict_voice_id req)).
  split; [reflexivity|]. split; [by destruct w as [T g [m p] wr]|].
  split; [reflexivity|]. split; [reflexivity|].
  unfold tokens_of, after_issue. cbn [snd upstream payment PaymentManager.TOKENS].
  apply lookup_insert_eq.
Qed.

Lemma C7_witness :
  let w := (Scenario.submitted 50).2 in
  let tid := task_id (Scenario.submitted 50).1 in
  quoted (Marketplace.get_detail "1" None (market (upstream w))).1 = Some 10 /\
  (c_get marketplace_client detail_path None (upstream w)).1
  = inr (mkResponse 402 (BJson (JObj [("detail", JObj [("price", JInt 10)])]))) /\
  py_get (JObj [("detail", JObj [("price", JInt 10)])]) "price" (JInt 0)
  = inr (JInt 0) /\
  wire (run_workflow tid w).2
  = (wire w ++
     [Get ToMarketplace detail_path None;
      Post ToPayment "/token" (JObj [("budget", JInt 0); ("voice_id", JStr "v1")]);
      Post ToMarketplace "/pay"
        (JObj [("tokenId", JStr (next_token w)); ("amount", JInt 0)]);
      Get ToMarketplace detail_path (Some (next_token w))])%list /\
  tokens_of (run_workflow tid w).2 !! next_token w = Some 0.
Proof.
  apply (C7_price_read_as_zero (Scenario.submitted 50).2
           (task_id (Scenario.submitted 50).1) (mkTaskRequest "test" 50 "v1")).
  reflexivity.
Defined.
End Deployed.

(** * Further properties of the code *)

(** ** The driver: what a run does and does not do *)

Section DriverConduct.
Import Orchestrator Spec Conduct.
Context {U : Type}.
Variables mc pc : Client U.

(** X1. For a task id that is not in [TASKS], or whose record is the
    empty dictionary, [run_workflow] returns at once: no request is sent and
    nothing in the world changes. *)
Theorem run_workflow_skips_unknown_task (tid : string) (w : world U) :
  TASKS w !! tid = None \/ TASKS w !! tid = Some ∅ ->
  run_workflow mc pc tid w = (inr tt, w).
Proof.
  intros [H|H]; unfold run_workflow; rewrite H; [done|].
  by destruct (decide ((∅ : gmap string pyval) = ∅)).
Qed.

(** X2. When the probe is answered with any status other than 402, no
    token is requested and nothing is paid: the probe is the only request,
    and the text of that answer, whatever its status, becomes the report. *)
Theorem run_workflow_unpriced_probe
    (tid : string) (w : world U) (task : gmap string pyval) (th : pyval)
    (r : Response) (u : U) :
  TASKS w !! tid = Some task ->
  task !! "theme" = Some th ->
  c_get mc detail_path None (upstream w) = (inr r, u) ->
  status_code r <> 402 ->
  run_workflow mc pc tid w
  = (inr tt,
     mkWorld (<[tid := <["report" := VStr (render_report th r)]> task]> (TASKS w))
       (rng w) u (wire w ++ [probe])).
Proof.
  intros Ht Hth Hget Hne. unfold run_workflow. rewrite Ht.
  destruct (decide (task = ∅)) as [E|_];
    [by destruct (task_with_theme_nonempty task th Hth)|].
  unfold lift, getitem. rewrite Hth.
  erewrite bind_inr by reflexivity.
  erewrite bind_inr by (apply http_get_eq; exact Hget).
  destruct (decide (status_code r = 402)); [done|].
  erewrite bind_inr by reflexivity.
  unfold set_report. cbn [TASKS rng upstream wire]. by rewrite Ht.
Qed.

Ltac run_cases :=
  unfold run_workflow, pay_and_retry, set_report, bind, lift, ret, http_get, http_post,
    getitem, header_value;
  repeat (case_match; simplify_eq/=).

(** X3. Against any upstream, the requests of one run are an initial
    segment of: probe, token request, settlement, retried GET. The
    settlement carries the price of the token request and the token id that
    the retried GET then shows; nothing is sent after the retried GET. *)
Theorem run_workflow_wire_shape (tid : string) (w : world U) :
  exists l, wire (run_workflow mc pc tid w).2 = (wire w ++ l)%list /\ wire_shape l.
Proof.
  run_cases; rewrite <- ?app_assoc; simpl;
    try (exists []; rewrite app_nil_r; split; [reflexivity | constructor]);
    try (eexists; split; [reflexivity | econstructor]).
Qed.

(** A run writes at most the report of its task. *)
Lemma run_workflow_writes_one_report (tid : string) (w : world U) :
  only_report tid (TASKS w) (TASKS (run_workflow mc pc tid w).2) /\
  rng (run_workflow mc pc tid w).2 = rng w.
Proof.
  run_cases; split; try reflexivity; try (by left); right; eauto.
Qed.

(** X4. Against any upstream, a run for [tid] leaves every other task as
    it was, keeps every field of the task other than [report], creates no
    record for an unknown id, and draws no uuid. *)
Corollary run_workflow_frame (tid : string) (w : world U) :
  (forall tid', tid' <> tid ->
     TASKS (run_workflow mc pc tid w).2 !! tid' = TASKS w !! tid') /\
  (forall t, TASKS w !! tid = Some t ->
     exists t', TASKS (run_workflow mc pc tid w).2 !! tid = Some t' /\
                forall k, k <> "report" -> t' !! k = t !! k) /\
  (TASKS w !! tid = None -> TASKS (run_workflow mc pc tid w).2 = TASKS w) /\
  rng (run_workflow mc pc tid w).2 = rng w.
Proof.
  destruct (run_workflow_writes_one_report tid w) as [[E|(t0 & rep & Ht0 & E)] Hr];
    rewrite E; (split; [|split; [|split; [|exact Hr]]]).
  - done.
  - intros t Ht. by exists t.
  - done.
  - intros tid' Hne. by rewrite lookup_insert_ne.
  - intros t Ht. rewrite Ht in Ht0. injection Ht0 as <-.
    eexists. split; [apply lookup_insert_eq|].
    intros k Hk. by rewrite lookup_insert_ne.
  - intros Hnone. by rewrite Hnone in Ht0.
Qed.

(** A record without [theme] stops the run before any request. *)
Lemma run_workflow_missing_theme (tid : string) (w : world U)
    (task : gmap string pyval) :
  TASKS w !! tid = Some task ->
  task <> ∅ ->
  task !! "theme" = None ->
  run_workflow mc pc tid w = (inl (KeyError "theme"), w).
Proof.
  intros Ht Hne Hth. unfold run_workflow. rewrite Ht.
  destruct (decide (task = ∅)); [done|].
  unfold lift, getitem. rewrite Hth. reflexivity.
Qed.

(** X6. A record without [voice_id] makes the paid path raise
    [KeyError('voice_id')]: after a refused probe whose price could be read,
    the run stops before any token is requested, with the probe as its only
    request and the task store as it was. *)
Theorem run_workflow_missing_voice_id (tid : string) (w : world U)
    (task : gmap string pyval) (th : pyval) (r : Response) (u : U) (j price : json) :
  TASKS w !! tid = Some task ->
  task !! "theme" = Some th ->
  task !! "voice_id" = None ->
  c_get mc detail_path None (upstream w) = (inr r, u) ->
  status_code r = 402 ->
  json_of r = inr j ->
  py_get j "price" (JInt 0) = inr price ->
  run_workflow mc pc tid w
  = (inl (KeyError "voice_id"),
     mkWorld (TASKS w) (rng w) u (wire w ++ [probe])).
Proof.
  intros Ht Hth Hv Hget H402 Hj Hp. unfold run_workflow. rewrite Ht.
  destruct (decide (task = ∅)) as [E|_];
    [by destruct (task_with_theme_nonempty task th Hth)|].
  unfold lift, getitem. rewrite Hth.
  erewrite bind_inr by reflexivity.
  erewrite bind_inr by (apply http_get_eq; exact Hget).
  destruct (decide (status_code r = 402)); [|done].
  unfold pay_and_retry, lift, getitem. rewrite Hj.
  erewrite bind_inl; [reflexivity|].
  erewrite bind_inr by reflexivity. rewrite Hp.
  erewrite bind_inr by reflexivity. rewrite Hv.
  erewrite bind_inl; reflexivity.
Qed.

(** X5. The status of the token response is not looked at: if its body is
    a JSON object without [token_id], the run raises [KeyError('token_id')]
    after the token request and before any settlement; the task store is as
    it was. *)
Theorem run_workflow_token_response_unchecked (tid : string) (w : world U)
    (task : gmap string pyval) (th voice : pyval) (r : Response) (u : U)
    (j price : json) (r2 : Response) (u2 : U) (kvs : list (string * json)) :
  TASKS w !! tid = Some task ->
  task !! "theme" = Some th ->
  task !! "voice_id" = Some voice ->
  c_get mc detail_path None (upstream w) = (inr r, u) ->
  status_code r = 402 ->
  json_of r = inr j ->
  py_get j "price" (JInt 0) = inr price ->
  c_post pc "/token"
    (JObj [("budget", price); ("voice_id", json_of_pyval voice)]) u = (inr r2, u2) ->
  json_of r2 = inr (JObj kvs) ->
  assoc "token_id" kvs = None ->
  run_workflow mc pc tid w
  = (inl (KeyError "token_id"),
     mkWorld (TASKS w) (rng w) u2 (wire w ++ [probe; token_request price voice])).
Proof.
  intros Ht Hth Hv Hget H402 Hj Hp Hpost Hj2 Hk. unfold run_workflow. rewrite Ht.
  destruct (decide (task = ∅)) as [E|_];
    [by destruct (task_with_theme_nonempty task th Hth)|].
  unfold lift, getitem. rewrite Hth.
  erewrite bind_inr by reflexivity.
  erewrite bind_inr by (apply http_get_eq; exact Hget).
  destruct (decide (status_code r = 402)); [|done].
  unfold pay_and_retry, lift, getitem. rewrite Hj.
  erewrite bind_inl; [reflexivity|].
  erewrite bind_inr by reflexivity. rewrite Hp.
  erewrite bind_inr by reflexivity. rewrite Hv.
  erewrite bind_inr by reflexivity.
  erewrite bind_inr by (apply http_post_eq; exact Hpost).
  rewrite Hj2.
  erewrite bind_inr by reflexivity.
  unfold py_item. rewrite Hk.
  erewrite bind_inl; [|reflexivity].
  cbn [TASKS rng upstream wire]. rewrite <- app_assoc. reflexivity.
Qed.
End DriverConduct.

(** ** The free search of the Resource Server *)

Section SearchFacts.
Import Marketplace Search.

Lemma contains_empty (hay : string) : contains "" hay = true.
Proof. by destruct hay. Qed.

Lemma collect_ok (keyword : string) (items : list (string * json)) :
  Forall (fun ci => exists kvs name,
            ci.2 = JObj kvs /\ assoc "name" kvs = Some (JStr name)) items ->
  exists data,
    collect keyword items = inr data /\
    forall e, e ∈ data <->
      exists cid kvs name,
        (cid, JObj kvs) ∈ items /\ assoc "name" kvs = Some (JStr name) /\
        contains (lower keyword) (lower name) = true /\ e = entry cid name.
Proof.
  induction 1 as [|[cid info] items (kvs & name & Hinfo & Hname) _ (data & Hd & IH)].
  - exists []. split; [done|]. intros e. split.
    + intros He. by apply elem_of_nil in He.
    + intros (cid & kvs & name & Hin & _). by apply elem_of_nil in Hin.
  - simpl in Hinfo. subst info. cbn [collect Orchestrator.py_item]. rewrite Hname, Hd.
    eexists. split; [reflexivity|]. intros e.
    destruct (contains (lower keyword) (lower name)) eqn:Hc.
    + rewrite elem_of_cons, IH. split.
      * intros [->|(cid' & kvs' & name' & Hin & Hrest)].
        -- exists cid, kvs, name. rewrite elem_of_cons. eauto.
        -- exists cid', kvs', name'. rewrite elem_of_cons. eauto.
      * intros (cid' & kvs' & name' & Hin & Hn' & Hc' & ->).
        apply elem_of_cons in Hin as [[= -> ->]|Hin].
        -- left. congruence.
        -- right. eauto 10.
    + rewrite IH. split.
      * intros (cid' & kvs' & name' & Hin & Hrest).
        exists cid', kvs', name'. rewrite elem_of_cons. eauto.
      * intros (cid' & kvs' & name' & Hin & Hn' & Hc' & ->).
        apply elem_of_cons in Hin as [[= -> ->]|Hin].
        -- congruence.
        -- eauto 10.
Qed.

Lemma named_items (m : state) :
  named m ->
  Forall (fun ci => exists kvs name,
            ci.2 = JObj kvs /\ assoc "name" kvs = Some (JStr name))
         (map_to_list (DETAIL m)).
Proof.
  intros Hn. apply Forall_forall. intros [cid info] Hin.
  apply elem_of_map_to_list in Hin. exact (Hn cid info Hin).
Qed.

Lemma name_of_Some (m : state) (cid name : string) :
  name_of m cid = Some name <->
  exists kvs, (cid, JObj kvs) ∈ map_to_list (DETAIL m) /\
              assoc "name" kvs = Some (JStr name).
Proof.
  unfold name_of. split.
  - destruct (DETAIL m !! cid) as [[| | | |?|kvs]|] eqn:E; try done.
    destruct (assoc "name" kvs) as [[| | |s| |]|] eqn:E2; try done.
    intros [= ->]. exists kvs. by rewrite elem_of_map_to_list.
  - intros (kvs & Hin & Hn). apply elem_of_map_to_list in Hin. by rewrite Hin, Hn.
Qed.


(** What the comprehension selects, for the model's [lower]. *)
Lemma get_basic_selects (keyword : string) (m : state) :
  named m ->
  exists data,
    get_basic keyword m = (inr (JObj [("data", JArr data)]), m) /\
    forall e, e ∈ data <->
      exists cid name,
        name_of m cid = Some name /\
        contains (lower keyword) (lower name) = true /\
        e = entry cid name.
Proof.
  intros Hn. destruct (collect_ok keyword _ (named_items m Hn)) as (data & Hd & Hin).
  exists data. unfold get_basic. rewrite Hd. split; [done|].
  intros e. rewrite Hin. split.
  - intros (cid & kvs & name & H1 & H2 & H3 & ->).
    exists cid, name. split; [|done]. apply name_of_Some. eauto.
  - intros (cid & name & H1 & H2 & ->).
    apply name_of_Some in H1 as (kvs & H1 & H1').
    exists cid, kvs, name. eauto.
Qed.


Lemma collect_empty_length (items : list (string * json)) (data : list json) :
  collect "" items = inr data -> length data = length items.
Proof.
  revert data. induction items as [|[cid info] items IH]; intros data.
  - by intros [= <-].
  - cbn [collect]. destruct (Orchestrator.py_item info "name") as [e|[| | |name| |]]; try done.
    destruct (collect "" items) as [e|data'] eqn:E; [done|].
    cbn [lower]. rewrite contains_empty. intros [= <-]. simpl. by rewrite (IH data').
Qed.

(** X15. With the default keyword, the empty string, every company is
    listed: [data] has as many entries as [DETAIL] has companies, and holds
    the id and name of each. *)
Theorem get_basic_empty_keyword_lists_all (m : state) :
  named m ->
  exists data,
    get_basic "" m = (inr (JObj [("data", JArr data)]), m) /\
    length data = size (DETAIL m) /\
    forall cid name, name_of m cid = Some name <-> entry cid name ∈ data.
Proof.
  intros Hn. destruct (get_basic_selects "" m Hn) as (data & Hg & Hin).
  exists data. split; [exact Hg|]. split.
  - unfold get_basic in Hg.
    destruct (collect "" (map_to_list (DETAIL m))) as [e|data'] eqn:E; [done|].
    injection Hg as <-. rewrite (collect_empty_length _ _ E).
    apply length_map_to_list.
  - intros cid name. rewrite Hin. split.
    + intros H. exists cid, name. split; [done|]. split; [apply contains_empty|done].
    + intros (cid' & name' & H1 & _ & [= -> ->]). exact H1.
Qed.

Lemma collect_raises (keyword : string) (items : list (string * json))
    (cid : string) (kvs : list (string * json)) :
  (cid, JObj kvs) ∈ items ->
  assoc "name" kvs = None ->
  exists e, collect keyword items = inl e.
Proof.
  intros Hin Hk. induction items as [|[cid' info] items IH].
  - by apply elem_of_nil in Hin.
  - apply elem_of_cons in Hin as [[= <- <-]|Hin].
    + cbn [collect Orchestrator.py_item]. rewrite Hk. eauto.
    + destruct (IH Hin) as [e He]. cbn [collect]. rewrite He.
      destruct (Orchestrator.py_item info "name") as [e'|[| | |name| |]]; eauto.
Qed.

(** X16. One company without a [name] breaks the search for every
    keyword, whether or not another company would have matched: [get_basic]
    raises. *)
Theorem get_basic_raises_on_nameless_company
    (keyword : string) (m : state) (cid : string) (kvs : list (string * json)) :
  DETAIL m !! cid = Some (JObj kvs) ->
  assoc "name" kvs = None ->
  exists e, get_basic keyword m = (inl e, m).
Proof.
  intros Hc Hk. unfold get_basic.
  destruct (collect_raises keyword (map_to_list (DETAIL m)) cid kvs) as [e He];
    [by apply elem_of_map_to_list | done |].
  rewrite He. eauto.
Qed.

Example get_basic_acme :
  get_basic "AcMe" init = (inr (JObj [("data", JArr [entry "1" "ACME Corp"])]), init) /\
  get_basic "xyz" init = (inr (JObj [("data", JArr [])]), init).
Proof. split; reflexivity. Qed.

End SearchFacts.

(** ** The backend services *)

Section Backend.
Import Deployment Spec Ledger.

(** *** Token Service *)

(** X9. Over HTTP: [POST /token] with budget [b] answers 200 with a
    non-empty [token_id] and [expire_in] 3600, and [GET /balance/<token_id>]
    right after answers [{"balance": b}] without changing the store. *)
Theorem token_then_balance_over_http (b : Z) (v : string) (p : PaymentManager.state) :
  exists tid,
    PaymentManager.route_post "/token"
      (JObj [("budget", JInt b); ("voice_id", JStr v)]) p
    = (mkResponse 200 (BJson (JObj [("token_id", JStr tid); ("expire_in", JInt 3600)])),
       (PaymentManager.create_token (PaymentManager.mkTokenRequest b v) p).2) /\
    tid <> "" /\
    PaymentManager.route_get ("/balance/" +:+ tid) None
      (PaymentManager.create_token (PaymentManager.mkTokenRequest b v) p).2
    = (mkResponse 200 (BJson (JObj [("balance", JInt b)])),
       (PaymentManager.create_token (PaymentManager.mkTokenRequest b v) p).2).
Proof.
  eexists. split; [reflexivity|]. split; [apply uuid_str_nonempty|].
  unfold PaymentManager.route_get. rewrite strip_prefix_app.
  unfold PaymentManager.get_balance. rewrite create_token_eq.
  cbn [snd PaymentManager.TOKENS]. rewrite lookup_insert_eq. reflexivity.
Qed.

(** X10. [get_balance] never changes the store; for an id that is not in
    [TOKENS] it returns balance 0, rendered [{"balance": 0}], rather than an
    error, so the answer 0 means either an unknown id or a token stored
    with balance 0. *)
Theorem get_balance_zero_is_ambiguous (tid : string) (p : PaymentManager.state) :
  (PaymentManager.get_balance tid p).2 = p /\
  (PaymentManager.TOKENS p !! tid = None ->
   PaymentManager.get_balance tid p = (PaymentManager.mkBalanceResponse 0, p) /\
   respond (inr (PaymentManager.json_of_BalanceResponse
                   (PaymentManager.get_balance tid p).1))
   = mkResponse 200 (BJson (JObj [("balance", JInt 0)]))) /\
  (PaymentManager.balance (PaymentManager.get_balance tid p).1 = 0 <->
   PaymentManager.TOKENS p !! tid = None \/ PaymentManager.TOKENS p !! tid = Some 0).
Proof.
  split; [reflexivity|]. split.
  - intros Hn. unfold PaymentManager.get_balance. rewrite Hn. by split.
  - unfold PaymentManager.get_balance. cbn [fst PaymentManager.balance].
    destruct (PaymentManager.TOKENS p !! tid) as [b|]; simpl.
    + split; [intros ->; by right | intros [?|[= ->]]; done].
    + split; [by left | done].
Qed.

Lemma serve_step (q : request) (u : backend) :
  market (serve q u) = market u /\
  dom (PaymentManager.TOKENS (payment u))
    ⊆ dom (PaymentManager.TOKENS (payment (serve q u))) /\
  drawn (PaymentManager.rng (payment (serve q u)))
  = (drawn (PaymentManager.rng (payment u)) + (if is_issue q then 1 else 0))%nat /\
  source (PaymentManager.rng (payment (serve q u)))
  = source (PaymentManager.rng (payment u)) /\
  (size (PaymentManager.TOKENS (payment (serve q u)))
   <= size (PaymentManager.TOKENS (payment u)) + (if is_issue q then 1 else 0))%nat.
Proof.
  destruct q as [id tok|req|req|tid]; cbn [serve is_issue market payment].
  - split; [by unfold Marketplace.get_detail; destruct (negb (truthy_str tok))|].
    repeat split; [done|lia|lia].
  - repeat split; [done|lia|lia].
  - rewrite create_token_eq. cbn [snd PaymentManager.TOKENS PaymentManager.rng drawn source].
    split; [done|]. split; [rewrite dom_insert_L; set_solver|].
    split; [lia|]. split; [done|].
    destruct (PaymentManager.TOKENS (payment u) !!
                uuid_str (uuid4_int (source (PaymentManager.rng (payment u))
                                            (drawn (PaymentManager.rng (payment u))))))
      as [b|] eqn:E.
    + rewrite map_size_insert_Some by eauto. apply Nat.le_add_r.
    + rewrite map_size_insert_None by done. by rewrite Nat.add_1_r.
  - unfold PaymentManager.get_balance. cbn [snd]. repeat split; [done|lia|lia].
Qed.

(** X11. No request removes a token: over any sequence of backend
    requests the ids in [TOKENS] only grow, the number of uuid draws grows by
    exactly the number of issuance requests, and the store grows by at most
    that number. *)
Theorem token_store_only_grows (qs : list request) (u : backend) :
  dom (PaymentManager.TOKENS (payment u))
    ⊆ dom (PaymentManager.TOKENS (payment (serve_all qs u))) /\
  drawn (PaymentManager.rng (payment (serve_all qs u)))
  = (drawn (PaymentManager.rng (payment u)) + issues qs)%nat /\
  (size (PaymentManager.TOKENS (payment (serve_all qs u)))
   <= size (PaymentManager.TOKENS (payment u)) + issues qs)%nat.
Proof.
  revert u. induction qs as [|q qs IH]; intros u.
  - unfold issues. simpl. repeat split; [done|lia|lia].
  - cbn [serve_all foldl]. fold (serve_all qs (serve q u)).
    destruct (IH (serve q u)) as (Hd & Hn & Hs).
    destruct (serve_step q u) as (_ & Hd1 & Hn1 & _ & Hs1).
    assert (Hi : issues (q :: qs) = ((if is_issue q then 1 else 0) + issues qs)%nat).
    { unfold issues. cbn [filter]. rewrite filter_cons. by destruct (is_issue q). }
    rewrite Hi. split; [by etrans|]. split; lia.
Qed.

(** X12. The Resource Server never writes its state: no sequence of
    backend requests, and no GET or POST on any path with any header or
    body, changes [DETAIL]. *)
Theorem resource_server_is_read_only (qs : list request) (u : backend) :
  market (serve_all qs u) = market u /\
  (forall path hdr, (Marketplace.route_get path hdr (market u)).2 = market u) /\
  (forall path b, (Marketplace.route_post path b (market u)).2 = market u).
Proof.
  split; [|split].
  - revert u. induction qs as [|q qs IH]; intros u; [done|].
    cbn [serve_all foldl]. fold (serve_all qs (serve q u)).
    rewrite IH. apply serve_step.
  - intros path hdr. unfold Marketplace.route_get.
    destruct (strip_prefix _ path); [|done].
    unfold Marketplace.get_detail. by destruct (negb (truthy_str hdr)).
  - intros path b. unfold Marketplace.route_post.
    destruct (decide (path = "/pay")); [|done].
    by destruct (Marketplace.parse_PayRequest b).
Qed.

(** *** Resource Server: the payment gate *)

(** X13. In [get_detail] the payment gate comes before the lookup: called
    without a token, or with an empty one, the handler raises the 402
    refusal for every id, known or not; called with a non-empty token and an
    id that is not in [DETAIL], it returns [None], answered 200 with the
    body [null]; the handler never gives an answer with another status than
    402 or 200. *)
Theorem get_detail_gate_precedes_lookup (id : string) (hdr : option string)
    (m : Marketplace.state) :
  let answer := respond (Marketplace.get_detail id hdr m).1 in
  (hdr = None \/ hdr = Some "" ->
   Marketplace.get_detail id hdr m
   = (inl (mkHTTPException 402 (JObj [("price", JInt 10)])), m) /\
   answer = mkResponse 402 (BJson (JObj [("detail", JObj [("price", JInt 10)])]))) /\
  (forall tok, hdr = Some tok -> tok <> "" -> Marketplace.DETAIL m !! id = None ->
   Marketplace.get_detail id hdr m = (inr JNull, m) /\
   answer = mkResponse 200 (BJson JNull) /\ text answer = "null") /\
  (status_code answer = 402 \/ status_code answer = 200).
Proof.
  intros answer. subst answer. unfold Marketplace.get_detail. split; [|split].
  - by intros [->| ->].
  - intros tok -> Htok Hid. rewrite truthy_nonempty by done. simpl. by rewrite Hid.
  - destruct (negb (truthy_str hdr)); [by left | by right].
Qed.

(** *** Token issuer *)

(** X17. [issue_token] does not look at its credentials: any [app_id] and
    [app_secret] give the answer the empty ones give, with [expire_in] 3600;
    and the token it hands out opens every known resource of the Resource
    Server. *)
Theorem issuer_token_opens_marketplace
    (app_id app_secret : string) (g : Rng) (u : backend) (id : string) (rec : json) :
  Marketplace.DETAIL (market u) !! id = Some rec ->
  TokenIssuer.issue_token app_id app_secret g = TokenIssuer.issue_token "" "" g /\
  TokenIssuer.expire_in (TokenIssuer.issue_token app_id app_secret g).1 = 3600 /\
  c_get marketplace_client ("/company/detail?id=" +:+ id)
    (Some (TokenIssuer.token_id (TokenIssuer.issue_token app_id app_secret g).1)) u
  = (inr (mkResponse 200 (BJson rec)), u).
Proof.
  intros Hid. split; [reflexivity|]. split; [reflexivity|].
  destruct u as [m p]. cbn [c_get marketplace_client market] in *.
  unfold Marketplace.route_get. rewrite strip_prefix_app.
  unfold Marketplace.get_detail, TokenIssuer.issue_token, uuid4.
  cbn [fst TokenIssuer.token_id]. rewrite truthy_nonempty by apply uuid_str_nonempty.
  cbn [negb]. rewrite Hid. reflexivity.
Qed.

End Backend.

(** ** Submission and the full flow *)

Section Submission.
Import Orchestrator Deployment Spec.

Lemma contains_app_r (needle s1 s2 : string) :
  contains needle s2 = true -> contains needle (s1 +:+ s2) = true.
Proof.
  intros H. induction s1 as [|c s1 IH]; [exact H|].
  change (contains needle (String c (s1 +:+ s2)) = true).
  cbn [contains]. destruct (String.prefix needle (String c (s1 +:+ s2))); [done | exact IH].
Qed.

Lemma prefix_app (needle s1 s2 : string) :
  String.prefix needle s1 = true -> String.prefix needle (s1 +:+ s2) = true.
Proof.
  revert s1. induction needle as [|a needle IH]; intros s1.
  - by destruct (s1 +:+ s2).
  - destruct s1 as [|b s1]; [done|]. cbn [String.prefix String.append].
    change (String b s1 +:+ s2) with (String b (s1 +:+ s2)). cbn [String.prefix].
    destruct (Ascii.ascii_dec a b); [apply IH | done].
Qed.

Lemma contains_app_l (needle s1 s2 : string) :
  contains needle s1 = true -> contains needle (s1 +:+ s2) = true.
Proof.
  induction s1 as [|c s1 IH].
  - cbn [contains]. destruct (String.prefix needle "") eqn:E; [|done].
    intros _. destruct needle; [|done]. by destruct s2.
  - change (String c s1 +:+ s2) with (String c (s1 +:+ s2)). cbn [contains].
    destruct (String.prefix needle (String c s1)) eqn:E.
    + intros _. apply (prefix_app _ _ s2) in E.
      change (String c s1 +:+ s2) with (String c (s1 +:+ s2)) in E. by rewrite E.
    + intros H. destruct (String.prefix needle (String c (s1 +:+ s2))); [done | by apply IH].
Qed.

Lemma contains_refl (s : string) : contains s s = true.
Proof.
  assert (H : String.prefix s s = true).
  { induction s as [|a s IH]; [done|]. cbn [String.prefix].
    by destruct (Ascii.ascii_dec a a). }
  destruct s; cbn [contains]; by rewrite H.
Qed.

(** X7. [create_task] stores [req.dict()] under the non-empty id it
    returns, without a report; every other task is kept, no request is sent,
    the upstream is untouched, and exactly one uuid is drawn. *)
Theorem create_task_records_request {U} (req : TaskRequest) (w : world U) :
  let tid := task_id (create_task req w).1 in
  let w' := (create_task req w).2 in
  tid <> "" /\
  TASKS w' !! tid = Some (dict req) /\
  dict req !! "report" = None /\
  (forall tid', tid' <> tid -> TASKS w' !! tid' = TASKS w !! tid') /\
  upstream w' = upstream w /\
  wire w' = wire w /\
  drawn (rng w') = S (drawn (rng w)).
Proof.
  intros tid w'. subst tid w'. unfold create_task, uuid4.
  cbn [fst snd task_id TASKS upstream wire rng drawn].
  split; [apply uuid_str_nonempty|].
  split; [apply lookup_insert_eq|].
  split; [by apply dict_other|].
  split; [|done].
  intros tid' Hne. by rewrite lookup_insert_ne.
Qed.

(** X8. The handler and one run composed, for every request and every
    prior state of the task and token stores: when [create_task] is called
    directly (its queued job not run) and [run_workflow] is then called once
    for the returned id with the two services as clients, against the
    initial [DETAIL], the run returns normally, the record stored under the
    new id is the request's with a report that contains [ACME Corp] and the
    theme, exactly one token request is sent and exactly one token id is
    drawn by the Token Service. *)
Theorem submit_then_run_reports_company
    (req : TaskRequest) (w : world backend) :
  market (upstream w) = Marketplace.init ->
  let tid := task_id (create_task req w).1 in
  let out := run_workflow tid (create_task req w).2 in
  out.1 = inr tt /\
  (exists report,
     TASKS out.2 !! tid = Some (<["report" := VStr report]> (dict req)) /\
     contains "ACME Corp" report = true /\
     contains (theme req) report = true) /\
  token_requests (drop (length (wire w)) (wire out.2)) = 1%nat /\
  drawn (PaymentManager.rng (payment (upstream out.2)))
  = S (drawn (PaymentManager.rng (payment (upstream w)))).
Proof.
  intros Hm tid out.
  assert (Ht : TASKS (create_task req w).2 !! tid = Some (dict req)).
  { subst tid. unfold create_task, uuid4. cbn [fst snd task_id TASKS].
    apply lookup_insert_eq. }
  assert (Hu : upstream (create_task req w).2 = upstream w) by reflexivity.
  assert (Hw : wire (create_task req w).2 = wire w) by reflexivity.
  pose proof (run_workflow_deployed (create_task req w).2 tid (dict req)
                (VStr (theme req)) (voice_id req) Ht (dict_theme req) (dict_voice_id req))
    as Hrun.
  subst out. rewrite Hrun. cbn [fst snd TASKS upstream wire].
  split; [done|]. split; [|split].
  - eexists. split; [apply lookup_insert_eq|].
    unfold render_report, granted, text. rewrite Hu, Hm. cbn [content py_str].
    split.
    + apply contains_app_r, contains_app_r, contains_app_r. reflexivity.
    + apply contains_app_r, contains_app_l, contains_refl.
  - rewrite Hw, drop_app_length. apply token_requests_handshake.
  - unfold after_issue. cbn [payment PaymentManager.rng drawn]. by rewrite Hu.
Qed.
End Submission.

(** ** The properties above at concrete inputs *)

Section Instances.
Import Orchestrator Deployment Spec Conduct Cases.

Lemma X1_witness :
  Orchestrator.run_workflow marketplace_client payment_client "no-such-task"
    (Scenario.on_record Scenario.backend0)
  = (inr tt, Scenario.on_record Scenario.backend0).
Proof.
  apply (run_workflow_skips_unknown_task marketplace_client payment_client
           "no-such-task" (Scenario.on_record Scenario.backend0)).
  left. reflexivity.
Defined.

Lemma X2_witness :
  let w := Scenario.on_record Scenario.backend0 in
  Orchestrator.run_workflow lost_marketplace payment_client "t" w
  = (inr tt,
     mkWorld (<["t" := <["report" := VStr (render_report (VStr "test") not_found)]>
                         (dict (mkTaskRequest "test" 50 "v1"))]> (TASKS w))
       (rng w) Scenario.backend0 (wire w ++ [probe])).
Proof.
  intros w.
  apply (run_workflow_unpriced_probe lost_marketplace payment_client "t" w
           (dict (mkTaskRequest "test" 50 "v1")) (VStr "test") not_found
           Scenario.backend0).
  - reflexivity.
  - reflexivity.
  - reflexivity.
  - simpl. lia.
Defined.

Lemma X5_witness :
  let w := Scenario.on_record Scenario.backend0 in
  Orchestrator.run_workflow marketplace_client broken_payment "t" w
  = (inl (KeyError "token_id"),
     mkWorld (TASKS w) (rng w) Scenario.backend0
       (wire w ++ [probe; token_request (JInt 0) (VStr "v1")])).
Proof.
  intros w.
  apply (run_workflow_token_response_unchecked marketplace_client broken_payment "t" w
           (dict (mkTaskRequest "test" 50 "v1")) (VStr "test") (VStr "v1")
           refusal Scenario.backend0
           (JObj [("detail", JObj [("price", JInt 10)])]) (JInt 0)
           (mkResponse 500 (BJson (JObj [("detail", JStr "Internal Server Error")])))
           Scenario.backend0 [("detail", JStr "Internal Server Error")]);
    reflexivity.
Defined.

Lemma X6_witness :
  let w := anonymous Scenario.backend0 in
  Orchestrator.run_workflow marketplace_client payment_client "t" w
  = (inl (KeyError "voice_id"),
     mkWorld (TASKS w) (rng w) Scenario.backend0 (wire w ++ [probe])).
Proof.
  intros w.
  apply (run_workflow_missing_voice_id marketplace_client payment_client "t" w
           {[ "theme" := VStr "test" ]} (VStr "test") refusal Scenario.backend0
           (JObj [("detail", JObj [("price", JInt 10)])]) (JInt 0));
    reflexivity.
Defined.

Lemma X8_witness :
  let req := mkTaskRequest "acme" 50 "v1" in
  let w := Scenario.world0 in
  let tid := task_id (create_task req w).1 in
  let out := run_workflow tid (create_task req w).2 in
  out.1 = inr tt /\
  (exists report,
     TASKS out.2 !! tid = Some (<["report" := VStr report]> (dict req)) /\
     contains "ACME Corp" report = true /\
     contains (theme req) report = true) /\
  token_requests (drop (length (wire w)) (wire out.2)) = 1%nat /\
  drawn (PaymentManager.rng (payment (upstream out.2)))
  = S (drawn (PaymentManager.rng (payment (upstream w)))).
Proof.
  intros req w.
  apply (submit_then_run_reports_company req w).
  reflexivity.
Defined.


Lemma X15_witness :
  exists data,
    Search.get_basic "" Marketplace.init
    = (inr (JObj [("data", JArr data)]), Marketplace.init) /\
    length data = size (Marketplace.DETAIL Marketplace.init) /\
    forall cid name,
      Search.name_of Marketplace.init cid = Some name <-> Search.entry cid name ∈ data.
Proof.
  apply (get_basic_empty_keyword_lists_all Marketplace.init).
  unfold Search.named, Marketplace.init, Marketplace.DETAIL0. cbn [Marketplace.DETAIL].
  apply map_Forall_singleton. eexists _, _. split; reflexivity.
Defined.

Lemma X16_witness :
  exists e, Search.get_basic "acme" nameless = (inl e, nameless).
Proof.
  apply (get_basic_raises_on_nameless_company "acme" nameless "2" [("id", JStr "2")]).
  - reflexivity.
  - reflexivity.
Defined.

Lemma X17_witness :
  TokenIssuer.issue_token "app" "wrong-secret" (Scenario.entropy 7)
  = TokenIssuer.issue_token "" "" (Scenario.entropy 7) /\
  TokenIssuer.expire_in
    (TokenIssuer.issue_token "app" "wrong-secret" (Scenario.entropy 7)).1 = 3600 /\
  c_get marketplace_client ("/company/detail?id=" +:+ "1")
    (Some (TokenIssuer.token_id
             (TokenIssuer.issue_token "app" "wrong-secret" (Scenario.entropy 7)).1))
    Scenario.backend0
  = (inr (mkResponse 200 (BJson Scenario.acme)), Scenario.backend0).
Proof.
  apply (issuer_token_opens_marketplace "app" "wrong-secret" (Scenario.entropy 7)
           Scenario.backend0 "1" Scenario.acme).
  reflexivity.
Defined.

End Instances.
